(** * Score reader: the extraction workflow's interactive playback session

    A shallow embedding of [run_extraction_workflow] (src/main.py): the
    learning step after the human correction, the application of stored
    preferences, the set-up of the playback session and the interactive
    command loop.

    - Python strings are [string]s over 8-bit code points (the Latin-1
      range of [str]), Python integers are [Z].
    - Music data, which the source handles as nested dictionaries and
      lists, is the type [pyval]; dictionaries are [gmap]s.
    - The loop threads its local variables, the library and the player
      through every turn: a turn maps a [session] and an input line to
      the events it produced (prompts, prints, calls of the player) and
      an [outcome] (go on, [break], or an exception leaving the loop).
    - The collaborators whose code is outside src/ are interfaces: the
      audio player is the class [AudioTool], the two learners are
      parameters of the learning step, and the preference store is the
      module [Library]. *)

From Stdlib Require Import Ascii.
From stdpp Require Import gmap strings list fin_maps pretty.

#[local] Set Warnings "-register-all".
#[local] Open Scope Z_scope.

(** ** Python string primitives used by the command loop *)

Module PyStr.

(** Code point of a character (characters are 8-bit code points). *)
Definition ord (a : ascii) : N := N_of_ascii a.

(** [str.isspace] on one character: TAB..CR, FS..US, space, NEL, NBSP. *)
Definition isspace (a : ascii) : bool :=
  let n := ord a in
  ((9 <=? n) && (n <=? 13) || (28 <=? n) && (n <=? 32)
   || (n =? 133) || (n =? 160))%N.

(** [str.lower] on one character: A..Z and the Latin-1 capitals. *)
Definition lower_char (a : ascii) : ascii :=
  let n := ord a in
  if ((65 <=? n) && (n <=? 90)
      || (192 <=? n) && (n <=? 222) && negb (n =? 215))%N
  then ascii_of_N (n + 32) else a.

Fixpoint lower (s : string) : string :=
  match s with
  | EmptyString => EmptyString
  | String a s' => String (lower_char a) (lower s')
  end.

Fixpoint lstrip (s : string) : string :=
  match s with
  | EmptyString => EmptyString
  | String a s' => if isspace a then lstrip s' else s
  end.

Definition rstrip (s : string) : string :=
  String.rev (lstrip (String.rev s)).

(** [s.strip()] *)
Definition strip (s : string) : string := rstrip (lstrip s).

(** [s.startswith(p)] *)
Fixpoint startswith (p s : string) : bool :=
  match p, s with
  | EmptyString, _ => true
  | String a p', String b s' => bool_decide (a = b) && startswith p' s'
  | String _ _, EmptyString => false
  end.

(** [c in s] for a one-character [c] *)
Fixpoint contains (c : ascii) (s : string) : bool :=
  match s with
  | EmptyString => false
  | String a s' => bool_decide (a = c) || contains c s'
  end.

(** Fields of [s] separated by every character satisfying [p]; empty
    fields are kept, so the result is never the empty list. *)
Fixpoint fields (p : ascii → bool) (s : string) : list string :=
  match s with
  | EmptyString => [EmptyString]
  | String a s' =>
      if p a then EmptyString :: fields p s'
      else match fields p s' with
           | w :: ws => String a w :: ws
           | [] => [String a EmptyString]
           end
  end.

(** [s.split(c)] for a one-character separator [c] *)
Definition split_on (c : ascii) (s : string) : list string :=
  fields (λ a, bool_decide (a = c)) s.

(** [s.split()]: runs of whitespace separate, no empty words. *)
Definition split (s : string) : list string :=
  filter (λ w, w ≠ EmptyString) (fields isspace s).

Definition digit (a : ascii) : option Z :=
  let n := ord a in
  if ((48 <=? n) && (n <=? 57))%N then Some (Z.of_N n - 48) else None.

(** Decimal digits with single underscores between digits; [seen] tells
    whether the previous character was a digit. *)
Fixpoint digits (acc : Z) (seen : bool) (s : string) : option Z :=
  match s with
  | EmptyString => if seen then Some acc else None
  | String a s' =>
      match digit a with
      | Some d => digits (10 * acc + d) true s'
      | None =>
          if bool_decide (a = "_"%char) && seen then digits acc false s'
          else None
      end
  end.

(** Number of digit characters of [s]. *)
Fixpoint count_digits (s : string) : N :=
  match s with
  | EmptyString => 0
  | String a s' =>
      ((match digit a with Some _ => 1 | None => 0 end)
       + count_digits s')%N
  end.

(** The default of [sys.get_int_max_str_digits()]. *)
Definition int_max_str_digits : N := 4300.

(** [int(s)] in base ten on a word without whitespace: an optional sign,
    then the digits; [None] stands for [ValueError], which a word of more
    digits than the limit raises as well. *)
Definition int (s : string) : option Z :=
  if (int_max_str_digits <? count_digits s)%N then None
  else match s with
       | String "+" s' => digits 0 false s'
       | String "-" s' => Z.opp <$> digits 0 false s'
       | _ => digits 0 false s
       end.

(** [s.endswith(suffix)] *)
Definition endswith (suffix s : string) : bool :=
  startswith (String.rev suffix) (String.rev s).

(** [s[n:]] *)
Fixpoint drop (n : nat) (s : string) : string :=
  match n, s with
  | O, _ => s
  | S n', String _ s' => drop n' s'
  | S _, EmptyString => EmptyString
  end.

(** [s.count(c)] for a one-character [c] *)
Fixpoint count (c : ascii) (s : string) : nat :=
  match s with
  | EmptyString => O
  | String a s' => ((if bool_decide (a = c) then 1 else 0) + count c s')%nat
  end.

(** [needle in s] *)
Fixpoint within (needle s : string) : bool :=
  startswith needle s
  || match s with
     | EmptyString => false
     | String _ s' => within needle s'
     end.

End PyStr.

(** ** Extracted music data

    The workflow treats a score as loosely typed nested data: a dictionary
    with string keys whose values are integers, strings, lists and further
    dictionaries (key, tempo, measures, the hands of a measure, the notes
    of an event).  Dictionaries are finite maps, so two dictionaries with
    the same entries are the same value whatever the insertion order, as
    for Python's [==]. *)

Inductive pyval :=
  | PNone
  | PInt (z : Z)
  | PStr (s : string)
  | PList (l : list pyval)
  | PDict (d : gmap string pyval).

(** [x == y] on music data: deep comparison, element by element for lists
    and key by key for dictionaries. *)
Fixpoint py_eqb (x y : pyval) {struct x} : bool :=
  match x, y with
  | PNone, PNone => true
  | PInt a, PInt b => bool_decide (a = b)
  | PStr a, PStr b => bool_decide (a = b)
  | PList l1, PList l2 =>
      (fix go (l1 l2 : list pyval) : bool :=
         match l1, l2 with
         | [], [] => true
         | a :: l1', b :: l2' => py_eqb a b && go l1' l2'
         | _, _ => false
         end) l1 l2
  | PDict d1, PDict d2 =>
      bool_decide (dom d1 = dom d2) &&
      map_fold (λ k v acc,
                  acc && match d2 !! k with
                         | Some w => py_eqb v w
                         | None => false
                         end) true d1
  | _, _ => false
  end.

(** Exceptions the workflow can meet. *)
Inductive exn :=
  | AttributeError
  | TypeError
  | IndexError
  | EOFError
  | PlayerError.

(** [d.get(k, dflt)]; only dictionaries have [get]. *)
Definition py_get (d : pyval) (k : string) (dflt : pyval) : exn + pyval :=
  match d with
  | PDict m => inr (default dflt (m !! k))
  | _ => inl AttributeError
  end.

(** [len(v)]; [None] and integers have no length. *)
Definition py_len (v : pyval) : exn + Z :=
  match v with
  | PList l => inr (Z.of_nat (length l))
  | PStr s => inr (Z.of_nat (String.length s))
  | PDict m => inr (Z.of_nat (size m))
  | PNone | PInt _ => inl TypeError
  end.

(** ** The library's preference store *)

(** Modelled from the spec: the type of a stored preference value, which
    the library manager (tools/library_manager.py) declares.  The spec's
    preferences are a tempo (an integer) and a hand (a string). *)
Inductive pref_value :=
  | VInt (z : Z)
  | VStr (s : string).

#[global] Instance pref_value_eq_dec : EqDecision pref_value.
Proof. solve_decision. Defined.

(** Truth value of [v] in a condition, [None] for an absent key. *)
Definition truthy (v : option pref_value) : bool :=
  match v with
  | None => false
  | Some (VInt z) => bool_decide (z ≠ 0)
  | Some (VStr s) => bool_decide (s ≠ EmptyString)
  end.

(** [str(v)], also what an f-string prints for [v]. *)
Definition py_str (v : option pref_value) : string :=
  match v with
  | None => "None"
  | Some (VInt z) => pretty z
  | Some (VStr s) => s
  end.

Module Library.

(** Modelled from the spec: the preference store of the library manager
    (tools/library_manager.py), one mapping of key to value per user:
    [update_preference] is an upsert that stores any key as it is given
    and is visible to the next read, and [get_user_preferences] returns
    the user's mapping, from which missing keys are absent. *)
Definition get_user_preferences
    (lib : gmap string (gmap string pref_value)) (user : string)
    : gmap string pref_value :=
  default ∅ (lib !! user).

Definition update_preference (key : string) (value : pref_value)
    (user : string) (lib : gmap string (gmap string pref_value))
    : gmap string (gmap string pref_value) :=
  <[user := <[key := value]> (get_user_preferences lib user)]> lib.

End Library.

(** ** The audio player *)

(** One call [player.play(data, hands=, tempo_override=, measure_range=)]. *)
Record play_request := PlayRequest {
  req_data : pyval;
  req_hands : list string;
  req_tempo : option pref_value;
  req_range : Z * Z
}.

(** Modelled from the spec: the audio player (tools/audio_tool.py), the
    spec's AudioRenderer, [render(score, hands, tempo, measure_range) ->
    success | failure].  A call takes the player to a new state and
    either returns ([true]) or raises ([false]); the spec gives no
    condition for either, so every theorem holds for every player. *)
Class AudioTool (P : Type) := play : P → play_request → P * bool.

(** A player that renders whatever it is asked. *)
Inductive steady_player := Steady.
#[global] Instance steady_play : AudioTool steady_player :=
  λ p _, (p, true).

(** A player whose device is gone: every call raises. *)
Inductive broken_player := Broken.
#[global] Instance broken_play : AudioTool broken_player :=
  λ p _, (p, false).

(** A player that refuses a range whose start lies after its end or that
    leaves the [n] measures it holds, and counts the calls it served. *)
Record strict_player := StrictPlayer { held : Z; served : nat }.
#[global] Instance strict_play : AudioTool strict_player :=
  λ p req,
    let '(s, e) := req_range req in
    if bool_decide (1 ≤ s ∧ s ≤ e ∧ e ≤ held p)
    then (StrictPlayer (held p) (S (served p)), true)
    else (p, false).

(** ** The interactive session *)

(** [input(...).strip().lower()] *)
Definition normalise (line : string) : string :=
  PyStr.lower (PyStr.strip line).

(** What the session writes and whom it calls, in order. *)
Inductive event :=
  | Prompt (msg : string)
  | Print (msg : string)
  | Played (req : play_request) (returned : bool).

(** How one turn of the loop ends: the loop goes on, it is left by
    [break], or an exception leaves the workflow. *)
Inductive outcome (S : Type) :=
  | Continue (st : S)
  | Break (st : S)
  | Raise (e : exn) (st : S).
Arguments Continue {S} st.
Arguments Break {S} st.
Arguments Raise {S} e st.

Section Session.

Context {P : Type} `{!AudioTool P}.

(** The variables of the loop and the objects it uses. *)
Record session := Session {
  corrected_data : pyval;
  user_id : string;
  total_measures : Z;
  current_measure : Z;
  current_tempo : option pref_value;
  current_hands : list string;
  library : gmap string (gmap string pref_value);
  player : P
}.

Definition set_measure (m : Z) (st : session) : session :=
  Session (corrected_data st) (user_id st) (total_measures st) m
          (current_tempo st) (current_hands st) (library st) (player st).

Definition set_tempo (t : option pref_value) (st : session) : session :=
  Session (corrected_data st) (user_id st) (total_measures st)
          (current_measure st) t (current_hands st) (library st)
          (player st).

Definition set_hands (h : list string) (st : session) : session :=
  Session (corrected_data st) (user_id st) (total_measures st)
          (current_measure st) (current_tempo st) h (library st)
          (player st).

Definition set_library (l : gmap string (gmap string pref_value))
    (st : session) : session :=
  Session (corrected_data st) (user_id st) (total_measures st)
          (current_measure st) (current_tempo st) (current_hands st) l
          (player st).

Definition set_player (p : P) (st : session) : session :=
  Session (corrected_data st) (user_id st) (total_measures st)
          (current_measure st) (current_tempo st) (current_hands st)
          (library st) p.

(** The request of
    [player.play(corrected_data, hands=current_hands,
                 tempo_override=current_tempo, measure_range=rng)]. *)
Definition request (st : session) (rng : Z * Z) : play_request :=
  PlayRequest (corrected_data st) (current_hands st) (current_tempo st)
              rng.

(** The call itself: the player's new state is kept either way. *)
Definition call_play (st : session) (rng : Z * Z)
    : session * event * bool :=
  let '(p, ok) := play (player st) (request st rng) in
  (set_player p st, Played (request st rng) ok, ok).

(** [s, e = map(int, rng.split('-'))]: exactly two fields, both
    integers; [None] is an exception, caught by the caller. *)
Definition parse_range (rng : string) : option (Z * Z) :=
  match PyStr.split_on "-" rng with
  | [a; b] => s ← PyStr.int a; e ← PyStr.int b; Some (s, e)
  | _ => None
  end.

(** [elif cmd.startswith('play')] *)
Definition do_play (st : session) (cmd : string)
    : list event * outcome session :=
  match PyStr.split cmd with
  | _ :: rng :: _ =>
      if PyStr.contains "-" rng then
        match parse_range rng with
        | Some (s, e) =>
            let '(st', ev, ok) := call_play st (s, e) in
            if ok then ([ev], Continue (set_measure e st'))
            else ([ev; Print "Invalid range."], Continue st')
        | None => ([Print "Invalid range."], Continue st)
        end
      else
        match PyStr.int rng with
        | Some m =>
            let '(st', ev, ok) := call_play st (m, m) in
            if ok then ([ev], Continue (set_measure m st'))
            else ([ev; Print "Invalid measure number."], Continue st')
        | None => ([Print "Invalid measure number."], Continue st)
        end
  | _ =>
      let '(st', ev, ok) :=
        call_play st (current_measure st, total_measures st) in
      if ok then ([ev], Continue st') else ([ev], Raise PlayerError st')
  end.

(** [elif cmd == 'next'] *)
Definition do_next (st : session) : list event * outcome session :=
  if bool_decide (current_measure st < total_measures st) then
    let st1 := set_measure (current_measure st + 1) st in
    let '(st', ev, ok) :=
      call_play st1 (current_measure st1, current_measure st1) in
    if ok then ([ev], Continue st') else ([ev], Raise PlayerError st')
  else ([Print "End of piece."], Continue st).

(** [elif cmd == 'prev'] *)
Definition do_prev (st : session) : list event * outcome session :=
  if bool_decide (current_measure st > 1) then
    let st1 := set_measure (current_measure st - 1) st in
    let '(st', ev, ok) :=
      call_play st1 (current_measure st1, current_measure st1) in
    if ok then ([ev], Continue st') else ([ev], Raise PlayerError st')
  else ([Print "Already at start."], Continue st).

(** [elif cmd.startswith('tempo')]; the index error of a missing
    argument and the value error of [int] are both caught. *)
Definition do_tempo (st : session) (cmd : string)
    : list event * outcome session :=
  match PyStr.split cmd with
  | _ :: w :: _ =>
      match PyStr.int w with
      | Some bpm =>
          let st1 := set_tempo (Some (VInt bpm)) st in
          let st2 :=
            set_library
              (Library.update_preference "tempo" (VInt bpm) (user_id st)
                                         (library st1)) st1 in
          ([Print ("Tempo set to " +:+ pretty bpm
                   +:+ " (preference saved)")],
           Continue st2)
      | None => ([Print "Invalid tempo."], Continue st)
      end
  | _ => ([Print "Invalid tempo."], Continue st)
  end.

(** [elif cmd.startswith('hand')]; [cmd.split()[1]] is outside any
    [try]. *)
Definition do_hand (st : session) (cmd : string)
    : list event * outcome session :=
  match PyStr.split cmd with
  | _ :: h :: _ =>
      if bool_decide (h ∈ ["left"; "right"; "both"]) then
        let st1 :=
          set_hands (if bool_decide (h = "both") then ["left"; "right"]
                     else [h]) st in
        let st2 :=
          set_library
            (Library.update_preference "hand" (VStr h) (user_id st)
                                       (library st1)) st1 in
        ([Print ("Hand set to " +:+ h +:+ " (preference saved)")],
         Continue st2)
      else ([Print "Invalid hand. Use left, right, or both."],
            Continue st)
  | _ => ([], Raise IndexError st)
  end.

(** One turn of the loop on the command [cmd], already stripped and
    lowered. *)
Definition exec_cmd (st : session) (cmd : string)
    : list event * outcome session :=
  if bool_decide (cmd = "exit") then ([], Break st)
  else if PyStr.startswith "play" cmd then do_play st cmd
  else if bool_decide (cmd = "next") then do_next st
  else if bool_decide (cmd = "prev") then do_prev st
  else if PyStr.startswith "tempo" cmd then do_tempo st cmd
  else if PyStr.startswith "hand" cmd then do_hand st cmd
  else ([Print "Unknown command."], Continue st).

(** The prompt of [input(f"(Measure {current_measure}/{total_measures}) > ")]. *)
Definition prompt (st : session) : event :=
  Prompt ("(Measure " +:+ pretty (current_measure st) +:+ "/"
          +:+ pretty (total_measures st) +:+ ") > ").

(** One turn on a line as typed:
    [cmd = input(...).strip().lower()] and the dispatch on it. *)
Definition step (st : session) (line : string)
    : list event * outcome session :=
  exec_cmd st (normalise line).

(** [while True:] over the lines the user types; when they run out,
    [input] raises [EOFError]. *)
Fixpoint run (st : session) (lines : list string)
    : list event * outcome session :=
  match lines with
  | [] => ([prompt st], Raise EOFError st)
  | line :: rest =>
      match step st line with
      | (out, Continue st') =>
          let '(out', r) := run st' rest in
          (prompt st :: out ++ out', r)
      | (out, r) => (prompt st :: out, r)
      end
  end.

(** [current_measure = 1] ... [elif args.hand == 'right': ...], the
    set-up of the session before the loop. *)
Definition init_session (data : pyval) (user : string)
    (args_tempo : option pref_value) (args_hand : option pref_value)
    (lib : gmap string (gmap string pref_value)) (p : P)
    : exn + session :=
  match py_get data "measures" (PList []) with
  | inl e => inl e
  | inr ms =>
      match py_len ms with
      | inl e => inl e
      | inr n =>
          inr (Session data user
                 (if bool_decide (n = 0) then 1 else n)
                 1 args_tempo
                 (if bool_decide (args_hand = Some (VStr "left"))
                  then ["left"]
                  else if bool_decide (args_hand = Some (VStr "right"))
                  then ["right"] else ["left"; "right"])
                 lib p)
      end
  end.

End Session.

Arguments session P : clear implicits.

(** ** The workflow around the session *)

(** The calls of the learning step, in order. *)
Inductive learner_call :=
  | LearnFromCorrection (original corrected : pyval) (user : string)
  | RecordCorrectionPattern (original corrected : pyval) (user : string).

Section Correction.

(** Everything the extraction agent and the library persist (memory,
    preferences, the correction history): the two learners
    (agents/extraction_agent.py, tools/library_manager.py) are
    collaborators that take it to a new state. *)
Context {W : Type}.
Variables learn_from_correction record_correction_pattern :
  pyval → pyval → string → W → W.

(** [if corrected_data != music_data: ...] *)
Definition learn_from_corrections (music_data corrected_data : pyval)
    (user : string) (w : W) : list learner_call * W :=
  if negb (py_eqb corrected_data music_data) then
    ([LearnFromCorrection music_data corrected_data user;
      RecordCorrectionPattern music_data corrected_data user],
     record_correction_pattern music_data corrected_data user
       (learn_from_correction music_data corrected_data user w))
  else ([], w).

End Correction.

(** Modelled from the spec: a correction record and a learner in the
    sense of the spec's CorrectionLearner, which the source leaves to
    agents/extraction_agent.py and tools/library_manager.py: a changed
    tempo becomes the user's default tempo, and every correction is
    appended to the history. *)
Record correction_record := CorrectionRecord {
  cr_user : string;
  cr_original : pyval;
  cr_corrected : pyval
}.

Record learner_state := LearnerState {
  ls_preferences : gmap string (gmap string pref_value);
  ls_corrections : list correction_record
}.

Definition score_tempo (score : pyval) : option Z :=
  match score with
  | PDict d => match d !! "tempo" with Some (PInt t) => Some t | _ => None end
  | _ => None
  end.

Definition spec_learn (original corrected : pyval) (user : string)
    (w : learner_state) : learner_state :=
  match score_tempo corrected with
  | Some t =>
      if bool_decide (score_tempo original = Some t) then w
      else LearnerState
             (Library.update_preference "default_tempo" (VInt t) user
                                        (ls_preferences w))
             (ls_corrections w)
  | None => w
  end.

Definition spec_record (original corrected : pyval) (user : string)
    (w : learner_state) : learner_state :=
  LearnerState (ls_preferences w)
    (ls_corrections w ++ [CorrectionRecord user original corrected]).

(** [if not args.tempo and preferences.get('default_tempo'): ...] *)
Definition use_preferred_tempo (args_tempo : option pref_value)
    (preferences : gmap string pref_value)
    : list event * option pref_value :=
  if negb (truthy args_tempo) && truthy (preferences !! "default_tempo")
  then
    let t := py_str (preferences !! "default_tempo") in
    ([Print ("Using preferred tempo from memory: " +:+ t)],
     Some (VStr t))
  else ([], args_tempo).

(** [if args.hand == 'both' and preferences.get('preferred_hand') != 'both': ...] *)
Definition use_preferred_hand (args_hand : option pref_value)
    (preferences : gmap string pref_value)
    : list event * option pref_value :=
  if bool_decide (args_hand = Some (VStr "both"))
     && bool_decide (preferences !! "preferred_hand" ≠ Some (VStr "both"))
  then
    let h := preferences !! "preferred_hand" in
    ([Print ("Using preferred hand from memory: " +:+ py_str h)], h)
  else ([], args_hand).

(** From [preferences = library.get_user_preferences(args.user_id)] to
    the first prompt: the arguments after the preferences are applied
    and the session they start. *)
Definition start_session {P : Type} `{!AudioTool P} (data : pyval)
    (user : string) (args_tempo args_hand : option pref_value)
    (lib : gmap string (gmap string pref_value)) (p : P)
    : list event * (exn + session P) :=
  let preferences := Library.get_user_preferences lib user in
  let '(out1, tempo) := use_preferred_tempo args_tempo preferences in
  let '(out2, hand) := use_preferred_hand args_hand preferences in
  (out1 ++ out2
   ++ [Print (String "010"%char "--- Interactive Session ---");
       Print "Commands: play [n], play [start]-[end], next, prev, tempo [bpm], hand [left/right/both], exit"],
   init_session data user tempo hand lib p).

(** ** Reading a command the way the loop does *)

(** [cmd.split()[1]] when [len(cmd.split()) > 1]. *)
Definition argument (cmd : string) : option string :=
  match PyStr.split cmd with
  | _ :: a :: _ => Some a
  | _ => None
  end.

(** The range [(s, e)] of a play command written [play s-e]. *)
Definition dash_range (cmd : string) : option (Z * Z) :=
  if PyStr.startswith "play" cmd then
    rng ← argument cmd;
    if PyStr.contains "-" rng then parse_range rng else None
  else None.

(** The measure [m] of a play command written [play m]. *)
Definition single_measure (cmd : string) : option Z :=
  if PyStr.startswith "play" cmd then
    rng ← argument cmd;
    if PyStr.contains "-" rng then None else PyStr.int rng
  else None.

(** The measure a play command asks the session to end on, if it names
    one. *)
Definition play_target (cmd : string) : option Z :=
  match dash_range cmd with
  | Some (_, e) => Some e
  | None => single_measure cmd
  end.

(** The integer a tempo command carries, if it carries one. *)
Definition tempo_argument (cmd : string) : option Z :=
  if PyStr.startswith "tempo" cmd then w ← argument cmd; PyStr.int w
  else None.

(** The tests of the loop's [if]/[elif] chain. *)
Definition recognised (cmd : string) : bool :=
  bool_decide (cmd = "exit") || PyStr.startswith "play" cmd
  || bool_decide (cmd = "next") || bool_decide (cmd = "prev")
  || PyStr.startswith "tempo" cmd || PyStr.startswith "hand" cmd.

(** [current_measure] lies between 1 and [total_measures]. *)
Definition in_bounds {P : Type} (st : session P) : Prop :=
  1 ≤ current_measure st ≤ total_measures st.

(** The session after [tempo bpm] for an integer [bpm]. *)
Definition with_tempo {P : Type} (bpm : Z) (st : session P) : session P :=
  set_library
    (Library.update_preference "tempo" (VInt bpm) (user_id st)
                               (library st))
    (set_tempo (Some (VInt bpm)) st).

(** The session an outcome leaves behind. *)
Definition state_of {S : Type} (r : outcome S) : S :=
  match r with
  | Continue st | Break st | Raise _ st => st
  end.

(** The loop was left from inside the handling of a command: neither by
    [exit] nor because the input ended. *)
Definition died_in_command {S : Type} (r : outcome S) : bool :=
  match r with
  | Raise EOFError _ | Break _ | Continue _ => false
  | Raise _ _ => true
  end.

(** A score of [n] empty measures in C at tempo 120, and a session on a
    score for the default user, with no tempo override, both hands and
    an empty library. *)
Definition rest_measure (id : Z) : pyval :=
  PDict (<["id" := PInt id]>
         (<["right_hand" := PList []]>
          (<["left_hand" := PList []]> ∅))).

Definition rest_score_dict (n : nat) : gmap string pyval :=
  <["key" := PStr "C"]>
    (<["tempo" := PInt 120]>
       (<["measures" := PList (rest_measure <$> seqZ 1 (Z.of_nat n))]> ∅)).

Definition rest_score (n : nat) : pyval := PDict (rest_score_dict n).

Definition three_measures : pyval := rest_score 3.

Definition session_on {P : Type} (data : pyval) (total at_measure : Z)
    (p : P) : session P :=
  Session data "default_user" total at_measure None ["left"; "right"] ∅ p.

(** ** Reading the hand command and the writes of a session *)

(** The selection a hand command carries, if it carries one. *)
Definition hand_argument (cmd : string) : option string :=
  if PyStr.startswith "hand" cmd then argument cmd else None.

(** A hand command without a selection. *)
Definition bare_hand (cmd : string) : bool :=
  PyStr.startswith "hand" cmd
  && match argument cmd with None => true | Some _ => false end.

(** The session after [hand h] for [h] among left, right and both. *)
Definition with_hand {P : Type} (h : string) (st : session P) : session P :=
  set_library
    (Library.update_preference "hand" (VStr h) (user_id st) (library st))
    (set_hands (if bool_decide (h = "both") then ["left"; "right"] else [h])
               st).

(** [current_hands] is one of the three lists the code ever builds. *)
Definition valid_hands {P : Type} (st : session P) : Prop :=
  current_hands st ∈ [["left"]; ["right"]; ["left"; "right"]].

(** A call [library.update_preference(key, value, args.user_id)] of the
    loop: the tempo branch and the hand branch are its only callers. *)
Inductive pref_write :=
  | WriteTempo (bpm : Z)
  | WriteHand (h : string).

Definition write_key (w : pref_write) : string :=
  match w with
  | WriteTempo _ => "tempo"
  | WriteHand _ => "hand"
  end.

Definition write_value (w : pref_write) : pref_value :=
  match w with
  | WriteTempo bpm => VInt bpm
  | WriteHand h => VStr h
  end.

Definition apply_write (user : string)
    (lib : gmap string (gmap string pref_value)) (w : pref_write)
    : gmap string (gmap string pref_value) :=
  Library.update_preference (write_key w) (write_value w) user lib.

(** The hand branch writes only after its test of the selection. *)
Definition allowed_write (w : pref_write) : Prop :=
  match w with
  | WriteTempo _ => True
  | WriteHand h => h ∈ ["left"; "right"; "both"]
  end.

(** The request of an event, when the event is a call of the player. *)
Definition played_request (ev : event) : option play_request :=
  match ev with
  | Played req _ => Some req
  | _ => None
  end.

(** ** The start of the extraction workflow *)

(** Truth value of music data in a condition. *)
Definition py_truthy (v : pyval) : bool :=
  match v with
  | PNone => false
  | PInt z => bool_decide (z ≠ 0)
  | PStr s => bool_decide (s ≠ EmptyString)
  | PList l => match l with [] => false | _ :: _ => true end
  | PDict d => negb (bool_decide (size d = 0%nat))
  end.

(** What the workflow says and whom it calls while it gets the music
    data of a file. *)
Inductive fetch_event :=
  | Said (msg : string)
  | Extracted (file_path user : string)
  | Saved (file_path : string) (data : pyval) (user : string).

Section Fetch.

(** The library and the extraction agent (tools/library_manager.py,
    agents/extraction_agent.py) are collaborators with a state of their
    own: a look-up and an extraction return music data, [None] or empty
    data when there is none. *)
Context {L E : Type}.
Variable get_cached_data : L → string → L * pyval.
Variable save_to_library : string → pyval → string → L → L.
Variable extract : E → string → string → E * pyval.

(** From [music_data = library.get_cached_data(args.file_path)] to
    [print("Extraction complete.")]; no data stands for the [return]
    after a failed extraction. *)
Definition fetch_music (file_path user : string) (lib : L) (ex : E)
    : list fetch_event * (L * E * option pyval) :=
  let '(lib1, music_data) := get_cached_data lib file_path in
  if negb (py_truthy music_data) then
    let '(ex1, music_data) := extract ex file_path user in
    if negb (py_truthy music_data) then
      ([Said "Extracting with memory-enabled agent...";
        Extracted file_path user;
        Said "Failed to extract music data."],
       (lib1, ex1, None))
    else
      ([Said "Extracting with memory-enabled agent...";
        Extracted file_path user;
        Saved file_path music_data user;
        Said "Extraction complete."],
       (save_to_library file_path music_data user lib1, ex1,
        Some music_data))
  else
    ([Said "Loaded from library."; Said "Extraction complete."],
     (lib1, ex, Some music_data)).

End Fetch.

(** The extraction of an event, when the event is one. *)
Definition is_extraction (ev : fetch_event) : bool :=
  match ev with
  | Extracted _ _ => true
  | _ => false
  end.

Definition is_save (ev : fetch_event) : bool :=
  match ev with
  | Saved _ _ _ => true
  | _ => false
  end.

(** ** The command line *)

(** The arguments [main] parses. *)
Record cli_args := CliArgs {
  arg_mode : string;
  arg_query : option string;
  arg_interactive : bool;
  arg_file : option string;
  arg_file_path : option string;
  arg_split_voice : bool;
  arg_notes : string;
  arg_hand : string;
  arg_tempo : option string;
  arg_clone_voice : bool;
  arg_evaluate : bool;
  arg_user_id : string;
  arg_eval_summary : bool
}.

(** Truth value of an optional string argument. *)
Definition given (a : option string) : bool :=
  match a with
  | Some s => bool_decide (s ≠ EmptyString)
  | None => false
  end.

(** The two workflows of [main]. *)
Inductive workflow := ExtractionWorkflow | MusicAssistant.

(** [if args.file_path or args.split_voice or args.clone_voice or
    args.eval_summary: ... else: ...] *)
Definition main_dispatch (a : cli_args) : workflow :=
  if given (arg_file_path a) || arg_split_voice a || arg_clone_voice a
     || arg_eval_summary a
  then ExtractionWorkflow else MusicAssistant.

(** [[n.strip() for n in args.notes.split(',')]] *)
Definition parse_notes (notes : string) : list string :=
  PyStr.strip <$> PyStr.split_on "," notes.

(** What [run_extraction_workflow] does before it looks at the library. *)
Inductive extraction_entry :=
  | ShowEvalSummary
  | SplitVoice (file_path : string) (notes : list string)
  | CloneVoice (file_path : string)
  | ProcessFile (file_path user : string)
  | Refused (msg : string).

(** The chain of early returns at the head of [run_extraction_workflow]. *)
Definition extraction_entry_of (a : cli_args) : extraction_entry :=
  if arg_eval_summary a then ShowEvalSummary
  else if arg_split_voice a then
    if negb (given (arg_file_path a))
    then Refused "Error: file_path required for --split-voice"
    else SplitVoice (default EmptyString (arg_file_path a))
                    (parse_notes (arg_notes a))
  else if arg_clone_voice a then
    if negb (given (arg_file_path a))
    then Refused "Error: file_path required for --clone-voice"
    else CloneVoice (default EmptyString (arg_file_path a))
  else if negb (given (arg_file_path a))
  then Refused "Error: file_path is required"
  else ProcessFile (default EmptyString (arg_file_path a)) (arg_user_id a).

(** The three branches of [run_music_assistant]. *)
Inductive assistant_mode := Interactive | SingleQuery | Usage.

(** [if args.interactive: ... elif args.query or args.file: ... else: ...] *)
Definition assistant_mode_of (a : cli_args) : assistant_mode :=
  if arg_interactive a then Interactive
  else if given (arg_query a) || given (arg_file a) then SingleQuery
  else Usage.

(** ** The music assistant *)

(** The MIME type the assistant gives a file: JPEG unless the lowered
    path ends in [.png] or [.pdf]. *)
Definition mime_type (file_path : string) : string :=
  if PyStr.endswith ".png" (PyStr.lower file_path) then "image/png"
  else if PyStr.endswith ".pdf" (PyStr.lower file_path)
  then "application/pdf"
  else "image/jpeg".

(** The inline part of a message: the type and the encoded content of a
    file. *)
Record inline_data := InlineData {
  inline_mime : string;
  inline_content : string
}.

(** A message for the runner: a text part and at most one file. *)
Record message := Message {
  msg_text : string;
  msg_file : option inline_data
}.

(** What the assistant writes and whom it calls. *)
Inductive chat_event :=
  | Asked
  | Uploading (file_path : string)
  | FileNotFound (file_path : string)
  | Sent (m : message)
  | Answered (texts : list string)
  | Failed.

(** Whether the loop of the assistant has stopped after the turns it was
    given. *)
Inductive loop_status (R : Type) :=
  | Stopped (r : R)
  | Running (r : R).
Arguments Stopped {R} r.
Arguments Running {R} r.

Section Assistant.

(** The file system, the base-64 encoder and the runner of the agent
    framework are collaborators: a file exists or not and can be read or
    not, and a run of the agent prints the texts it yields and then
    returns ([true]) or raises ([false]). *)
Context {R : Type}.
Variable path_exists : string → bool.
Variable read_file : string → option string.
Variable b64encode : string → string.
Variable run_async : R → message → R * list string * bool.

(** [async for event in runner.run_async(...)] with its prints, inside
    the [try] of the caller. *)
Definition send (before : list chat_event) (m : message) (r : R)
    : list chat_event * R :=
  let '(r', texts, ok) := run_async r m in
  (before ++ [Sent m; Answered texts] ++ (if ok then [] else [Failed]), r').

(** The message of an upload or a query with the file at [file_path],
    when the file is there. *)
Definition send_with_file (text file_path : string) (r : R)
    : list chat_event * R :=
  match read_file file_path with
  | Some content =>
      send [Uploading file_path]
           (Message text
              (Some (InlineData (mime_type file_path) (b64encode content))))
           r
  | None => ([Uploading file_path; Failed], r)
  end.

(** One turn of the interactive loop on the line [user_input]: [Break]
    for [exit] and [quit], else the turn ends with [Continue], since
    every exception is caught and reported. *)
Definition assistant_turn (r : R) (user_input : string)
    : list chat_event * outcome R :=
  if bool_decide (PyStr.lower user_input ∈ ["exit"; "quit"])
  then ([], Break r)
  else if PyStr.startswith "upload " (PyStr.lower user_input) then
    let file_path := PyStr.strip (PyStr.drop 7 user_input) in
    let text :=
      "Please convert this music sheet image to MusicXML. File path: "
      +:+ file_path in
    if bool_decide (file_path ≠ EmptyString) && path_exists file_path
    then let '(out, r') := send_with_file text file_path r in
         (out, Continue r')
    else let '(out, r') := send [] (Message text None) r in
         (out, Continue r')
  else let '(out, r') := send [] (Message user_input None) r in
       (out, Continue r').

(** [while True:] of the assistant for [fuel] turns.  When the lines run
    out, [input] raises [EOFError] inside the [try], and
    [except Exception] reports it and lets the loop go on. *)
Fixpoint assistant_loop (fuel : nat) (r : R) (lines : list string)
    : list chat_event * loop_status R :=
  match fuel with
  | O => ([], Running r)
  | S fuel' =>
      match lines with
      | [] =>
          let '(out, s) := assistant_loop fuel' r [] in
          (Asked :: Failed :: out, s)
      | line :: rest =>
          match assistant_turn r line with
          | (out, Break r') => (Asked :: out, Stopped r')
          | (out, Continue r') | (out, Raise _ r') =>
              let '(out', s) := assistant_loop fuel' r' rest in
              (Asked :: out ++ out', s)
          end
      end
  end.

(** The single query of [run_music_assistant]: a missing file is
    reported and ends the query before anything is sent. *)
Definition single_query (query file : option string) (r : R)
    : list chat_event * R :=
  let query_text :=
    if given query then default EmptyString query
    else "I'm uploading a music sheet. Please convert it to MusicXML." in
  if given file then
    let f := default EmptyString file in
    if negb (path_exists f) then ([FileNotFound f], r)
    else send_with_file query_text f r
  else send [] (Message query_text None) r.

End Assistant.

(** The messages an event list sent to the runner. *)
Definition sent_messages (evs : list chat_event) : list message :=
  omap (λ ev, match ev with Sent m => Some m | _ => None end) evs.

(** ** The filter on the error stream *)

(** The three phrases [FilteredStderr.write] drops. *)
Definition filtered_phrases : list string :=
  ["Warning: there are non-text parts in the response";
   "returning concatenated text result from text parts";
   "Check the full candidates.content.parts accessor"].

(** [FilteredStderr.write(text)] on the texts the original stream has
    received so far. *)
Definition filtered_write (original : list string) (text : string)
    : list string :=
  if existsb (λ phrase, PyStr.within phrase text) filtered_phrases
  then original
  else original ++ [text].

(** Modelled from the spec: the score store of the library
    (tools/library_manager.py), the spec's ScoreStore, a map from the
    path of a file to the music data saved for it, where the last save
    wins and a look-up of an unused path gives [None]. *)
Definition store_get (lib : gmap string pyval) (file_path : string)
    : gmap string pyval * pyval :=
  (lib, default PNone (lib !! file_path)).

Definition store_save (file_path : string) (data : pyval) (user : string)
    (lib : gmap string pyval) : gmap string pyval :=
  <[file_path := data]> lib.

(** An extraction agent that reads three empty measures off every sheet
    and counts its extractions. *)
Definition extract_rests (count : nat) (file_path user : string)
    : nat * pyval :=
  (S count, rest_score 3).

(** * Properties *)

(** ** Deep equality of music data *)

Fixpoint pyval_size (v : pyval) : nat :=
  match v with
  | PList l => S (foldr (λ x n, (pyval_size x + n)%nat) 0%nat l)
  | PDict d => S (map_fold (λ _ x n, (pyval_size x + n)%nat) 0%nat d)
  | _ => 1%nat
  end.

Lemma pyval_size_list_elem (l : list pyval) (x : pyval) :
  x ∈ l → (pyval_size x < pyval_size (PList l))%nat.
Proof.
  induction 1 as [x l|x y l _ IH]; simpl in *; lia.
Qed.

Lemma pyval_size_dict_elem (d : gmap string pyval) (k : string) (x : pyval) :
  d !! k = Some x → (pyval_size x < pyval_size (PDict d))%nat.
Proof.
  simpl. revert k x.
  apply (map_fold_weak_ind
           (λ r (m : gmap string pyval),
              ∀ k x, m !! k = Some x → (pyval_size x < S r)%nat)).
  - intros k x. by rewrite lookup_empty.
  - intros i y m r Hi IH k x. rewrite lookup_insert.
    case_decide; intros Hk; simplify_eq.
    + lia.
    + specialize (IH _ _ Hk). lia.
Qed.

(** Induction on music data with the hypothesis for every element of a
    list and every value of a dictionary. *)
Lemma pyval_deep_ind (Q : pyval → Prop) :
  Q PNone →
  (∀ z, Q (PInt z)) →
  (∀ s, Q (PStr s)) →
  (∀ l, Forall Q l → Q (PList l)) →
  (∀ d, map_Forall (λ _, Q) d → Q (PDict d)) →
  ∀ v, Q v.
Proof.
  intros HN HI HS HL HD v.
  remember (pyval_size v) as n eqn:Hn. revert v Hn.
  induction (lt_wf n) as [n _ IH]. intros v ->.
  destruct v as [| | |l|d]; auto.
  - apply HL, Forall_forall. intros x Hx.
    exact (IH _ (pyval_size_list_elem _ _ Hx) _ eq_refl).
  - apply HD. intros k x Hk.
    exact (IH _ (pyval_size_dict_elem _ _ _ Hk) _ eq_refl).
Qed.

Lemma py_eqb_list_unfold (l1 l2 : list pyval) :
  py_eqb (PList l1) (PList l2) =
  match l1, l2 with
  | [], [] => true
  | a :: l1', b :: l2' => py_eqb a b && py_eqb (PList l1') (PList l2')
  | _, _ => false
  end.
Proof. by destruct l1, l2. Qed.

Lemma py_eqb_dict_unfold (d1 d2 : gmap string pyval) :
  py_eqb (PDict d1) (PDict d2) =
  bool_decide (dom d1 = dom d2) &&
  map_fold (λ k v acc,
              acc && match d2 !! k with
                     | Some w => py_eqb v w
                     | None => false
                     end) true d1.
Proof. reflexivity. Qed.

(** The fold over the entries of [d1] holds exactly when every entry of
    [d1] has a deep-equal partner under the same key of [d2]. *)
Lemma py_eqb_entries (d1 d2 : gmap string pyval) :
  map_fold (λ k v acc,
              acc && match d2 !! k with
                     | Some w => py_eqb v w
                     | None => false
                     end) true d1 = true
  ↔ ∀ k v, d1 !! k = Some v → ∃ w, d2 !! k = Some w ∧ py_eqb v w = true.
Proof.
  apply (map_fold_weak_ind
           (λ (r : bool) (m : gmap string pyval),
              r = true ↔
              ∀ k v, m !! k = Some v →
                     ∃ w, d2 !! k = Some w ∧ py_eqb v w = true)).
  - split; [|done]. intros _ k v. by rewrite lookup_empty.
  - intros i x m r Hi [IH1 IH2]. rewrite andb_true_iff. split.
    + intros [Hr Hx] k v. rewrite lookup_insert.
      case_decide; intros Hk; simplify_eq.
      * destruct (d2 !! k) as [w|]; [eauto|done].
      * by apply IH1.
    + intros Hall. split.
      * apply IH2. intros k v Hk. apply Hall.
        rewrite lookup_insert_ne; [done|]. intros ->. congruence.
      * destruct (Hall i x) as (w & -> & Hw); [|done].
        by rewrite lookup_insert_eq.
Qed.

(** [py_eqb] decides equality of the two values: it is deep structural
    equality over the whole score. *)
Lemma py_eqb_eq (x y : pyval) : py_eqb x y = true ↔ x = y.
Proof.
  revert y. induction x as [|a|a|l IH|d IH] using pyval_deep_ind;
    intros y.
  - destruct y; simpl; split; congruence.
  - destruct y; simpl; try (split; congruence).
    rewrite bool_decide_eq_true. split; congruence.
  - destruct y; simpl; try (split; congruence).
    rewrite bool_decide_eq_true. split; congruence.
  - destruct y as [| | |l2|]; try (simpl; split; congruence).
    revert l2. induction IH as [|a l Ha _ IHl]; intros l2;
      rewrite py_eqb_list_unfold; destruct l2 as [|b l2];
      try (split; congruence).
    rewrite andb_true_iff, Ha, IHl. split.
    + intros [-> [= ->]]. done.
    + intros [= -> ->]. done.
  - destruct y as [| | | |d2]; try (simpl; split; congruence).
    rewrite py_eqb_dict_unfold, andb_true_iff, bool_decide_eq_true,
      py_eqb_entries.
    split.
    + intros [Hdom Hent]. f_equal. apply map_eq. intros k.
      destruct (d !! k) as [v|] eqn:Hk.
      * destruct (Hent _ _ Hk) as (w & -> & Hw).
        f_equal. by apply (IH _ _ Hk).
      * symmetry. apply not_elem_of_dom. rewrite <- Hdom.
        by apply not_elem_of_dom.
    + intros [= <-]. split; [done|]. intros k v Hk.
      exists v. split; [done|]. by apply (IH _ _ Hk).
Qed.

Lemma py_eqb_refl (x : pyval) : py_eqb x x = true.
Proof. by apply py_eqb_eq. Qed.

(** ** The dispatch of the loop *)

Lemma startswith_app (p s : string) :
  PyStr.startswith p s = true → ∃ r, s = p +:+ r.
Proof.
  revert s. induction p as [|a p IH]; intros s; simpl.
  - intros _. by exists s.
  - destruct s as [|b s]; [done|].
    rewrite andb_true_iff, bool_decide_eq_true. intros [-> Hs].
    destruct (IH _ Hs) as [r ->]. by exists r.
Qed.

Section Dispatch.

Context {P : Type} `{!AudioTool P}.
Implicit Types (st : session P) (cmd line : string).

Lemma exec_exit st : exec_cmd st "exit" = ([], Break st).
Proof. reflexivity. Qed.

Lemma exec_next st : exec_cmd st "next" = do_next st.
Proof. reflexivity. Qed.

Lemma exec_prev st : exec_cmd st "prev" = do_prev st.
Proof. reflexivity. Qed.

Lemma exec_play st cmd :
  PyStr.startswith "play" cmd = true → exec_cmd st cmd = do_play st cmd.
Proof. intros [r ->]%startswith_app. reflexivity. Qed.

Lemma exec_tempo st cmd :
  PyStr.startswith "tempo" cmd = true →
  exec_cmd st cmd = do_tempo st cmd.
Proof. intros [r ->]%startswith_app. reflexivity. Qed.

Lemma exec_hand st cmd :
  PyStr.startswith "hand" cmd = true → exec_cmd st cmd = do_hand st cmd.
Proof. intros [r ->]%startswith_app. reflexivity. Qed.

Lemma exec_unknown st cmd :
  recognised cmd = false →
  exec_cmd st cmd = ([Print "Unknown command."], Continue st).
Proof.
  unfold recognised, exec_cmd.
  rewrite !orb_false_iff.
  intros (((((H1 & H2) & H3) & H4) & H5) & H6).
  by rewrite H1, H2, H3, H4, H5, H6.
Qed.

(** Every command falls in exactly one branch of the chain. *)
Lemma exec_cmd_cases st cmd :
  (cmd = "exit" ∧ exec_cmd st cmd = ([], Break st))
  ∨ (PyStr.startswith "play" cmd = true ∧ exec_cmd st cmd = do_play st cmd)
  ∨ (cmd = "next" ∧ exec_cmd st cmd = do_next st)
  ∨ (cmd = "prev" ∧ exec_cmd st cmd = do_prev st)
  ∨ (PyStr.startswith "tempo" cmd = true
     ∧ exec_cmd st cmd = do_tempo st cmd)
  ∨ (PyStr.startswith "hand" cmd = true
     ∧ exec_cmd st cmd = do_hand st cmd)
  ∨ (recognised cmd = false
     ∧ exec_cmd st cmd = ([Print "Unknown command."], Continue st)).
Proof.
  destruct (recognised cmd) eqn:Hrec.
  - unfold recognised in Hrec.
    rewrite !orb_true_iff, !bool_decide_eq_true in Hrec.
    destruct Hrec as [[[[[-> | H] | ->] | ->] | H] | H].
    + left. by rewrite exec_exit.
    + right; left. by rewrite exec_play.
    + do 2 right; left. by rewrite exec_next.
    + do 3 right; left. by rewrite exec_prev.
    + do 4 right; left. by rewrite exec_tempo.
    + do 5 right; left. by rewrite exec_hand.
  - do 6 right. by rewrite exec_unknown.
Qed.

End Dispatch.

(** ** Navigation: next and prev *)

(** C8. [next] below the last measure moves [current_measure] up by one
    and calls the player on that single measure; at the last measure it
    prints "End of piece." and changes nothing.  [prev] is symmetric: above
    measure 1 it moves down by one and plays that measure, at measure 1 it
    prints "Already at start." and changes nothing.  There is no
    wraparound.  (When the player returns the session goes on at the new
    measure; its exception is not caught by these two branches.) *)
Theorem next_prev_navigation {P : Type} `{!AudioTool P} (st : session P) :
  (current_measure st < total_measures st →
   ∀ p ok,
     let m := current_measure st + 1 in
     play (player st) (request (set_measure m st) (m, m)) = (p, ok) →
     step st "next" =
       ([Played (request (set_measure m st) (m, m)) ok],
        if ok then Continue (set_player p (set_measure m st))
        else Raise PlayerError (set_player p (set_measure m st))))
  ∧ (current_measure st = total_measures st →
     step st "next" = ([Print "End of piece."], Continue st))
  ∧ (current_measure st > 1 →
     ∀ p ok,
       let m := current_measure st - 1 in
       play (player st) (request (set_measure m st) (m, m)) = (p, ok) →
       step st "prev" =
         ([Played (request (set_measure m st) (m, m)) ok],
          if ok then Continue (set_player p (set_measure m st))
          else Raise PlayerError (set_player p (set_measure m st))))
  ∧ (current_measure st = 1 →
     step st "prev" = ([Print "Already at start."], Continue st)).
Proof.
  repeat split.
  - intros Hlt p ok m Hplay.
    change (step st "next") with (do_next st). unfold do_next, call_play.
    rewrite bool_decide_eq_true_2 by done. simpl.
    fold m. rewrite Hplay. by destruct ok.
  - intros Heq.
    change (step st "next") with (do_next st). unfold do_next.
    rewrite bool_decide_eq_false_2 by lia. done.
  - intros Hgt p ok m Hplay.
    change (step st "prev") with (do_prev st). unfold do_prev, call_play.
    rewrite bool_decide_eq_true_2 by done. simpl.
    fold m. rewrite Hplay. by destruct ok.
  - intros Heq.
    change (step st "prev") with (do_prev st). unfold do_prev.
    rewrite bool_decide_eq_false_2 by lia. done.
Qed.

Lemma next_prev_navigation_witness :
  step (session_on three_measures 3 1 Steady) "next" =
    ([Played (PlayRequest three_measures ["left"; "right"] None (2, 2)) true],
     Continue (session_on three_measures 3 2 Steady))
  ∧ step (session_on three_measures 3 3 Steady) "next" =
      ([Print "End of piece."],
       Continue (session_on three_measures 3 3 Steady))
  ∧ step (session_on three_measures 3 3 Steady) "prev" =
      ([Played (PlayRequest three_measures ["left"; "right"] None (2, 2)) true],
       Continue (session_on three_measures 3 2 Steady))
  ∧ step (session_on three_measures 3 1 Steady) "prev" =
      ([Print "Already at start."],
       Continue (session_on three_measures 3 1 Steady)).
Proof.
  split; [|split; [|split]].
  - exact (proj1 (next_prev_navigation
                    (session_on three_measures 3 1 Steady))
                 ltac:(simpl; lia) Steady true eq_refl).
  - exact (proj1 (proj2 (next_prev_navigation
                           (session_on three_measures 3 3 Steady)))
                 eq_refl).
  - exact (proj1 (proj2 (proj2 (next_prev_navigation
                                  (session_on three_measures 3 3 Steady))))
                 ltac:(simpl; lia) Steady true eq_refl).
  - exact (proj2 (proj2 (proj2 (next_prev_navigation
                                  (session_on three_measures 3 1 Steady))))
                 eq_refl).
Defined.

(** ** Play without a range *)

(** C3. A play command without a range calls the player on the range
    from [current_measure] to [total_measures]; whatever the player does,
    [current_measure] is what it was before: the branch has no assignment
    to it, unlike the two branches that play a typed measure or range. *)
Theorem bare_play_keeps_position {P : Type} `{!AudioTool P}
    (st : session P) :
  let req := request st (current_measure st, total_measures st) in
  let res := play (player st) req in
  step st "play" =
    ([Played req res.2],
     if res.2 then Continue (set_player res.1 st)
     else Raise PlayerError (set_player res.1 st))
  ∧ current_measure (state_of (step st "play").2) = current_measure st.
Proof.
  intros req res.
  change (step st "play") with (do_play st "play").
  unfold do_play, call_play. simpl. fold req res.
  destruct res as [p [|]]; simpl; done.
Qed.

(** On three measures, from measure 1, with a player that returns: the
    range played is 1 to 3 and the session stays on measure 1. *)
Example bare_play_three_measures :
  step (session_on three_measures 3 1 Steady) "play" =
    ([Played (PlayRequest three_measures ["left"; "right"] None (1, 3)) true],
     Continue (session_on three_measures 3 1 Steady)).
Proof. reflexivity. Qed.

(** ** Commands the loop does not survive *)

(** A line that passes none of the tests of the chain prints
    "Unknown command." and leaves the session as it was. *)
Lemma unknown_command_is_no_op {P : Type} `{!AudioTool P}
    (st : session P) (line : string) :
  recognised (normalise line) = false →
  step st line = ([Print "Unknown command."], Continue st).
Proof. apply exec_unknown. Qed.

(** C5. A tempo command without an argument is caught and reported, but
    a hand command without an argument raises [IndexError] outside any
    [try], and so does the exception of the player in [next], [prev] and
    play without a range: the loop is then left from inside the handling
    of a command, whatever lines were still to come. *)
Theorem hand_without_argument_ends_session {P : Type} `{!AudioTool P}
    (st : session P) (rest : list string) :
  step st "tempo" = ([Print "Invalid tempo."], Continue st)
  ∧ run st ("hand" :: rest) = ([prompt st], Raise IndexError st)
  ∧ died_in_command (run st ("hand" :: rest)).2 = true
  ∧ died_in_command
      (run (session_on three_measures 3 1 Broken) ("next" :: rest)).2 = true
  ∧ died_in_command
      (run (session_on three_measures 3 2 Broken) ("prev" :: rest)).2 = true
  ∧ died_in_command
      (run (session_on three_measures 3 1 Broken) ("play" :: rest)).2 = true.
Proof. repeat split. Qed.

(** ** Stored preferences before the session *)

(** C10. When the preferences the library returns for the user have no
    [preferred_hand] key, a run with the default hand [both] replaces the
    hand argument by the result of the lookup, which is [None], and says
    so: the guard compares the looked-up value with [both] and does not
    ask whether the key is there. *)
Theorem absent_preferred_hand_replaces_both
    (preferences : gmap string pref_value) :
  preferences !! "preferred_hand" = None →
  use_preferred_hand (Some (VStr "both")) preferences
  = ([Print "Using preferred hand from memory: None"], None).
Proof.
  intros Habsent. unfold use_preferred_hand. rewrite Habsent. reflexivity.
Qed.

Lemma absent_preferred_hand_replaces_both_witness :
  use_preferred_hand (Some (VStr "both")) {["default_tempo" := VInt 90]}
  = ([Print "Using preferred hand from memory: None"], None).
Proof.
  apply (absent_preferred_hand_replaces_both
           {["default_tempo" := VInt 90]}).
  reflexivity.
Defined.

(** The session still starts with both hands: [None] is neither [left]
    nor [right]. *)
Example absent_preferred_hand_plays_both :
  (start_session three_measures "default_user" None (Some (VStr "both"))
                 ∅ Steady).2
  = inr (session_on three_measures 3 1 Steady).
Proof. reflexivity. Qed.

(** ** Learning from corrections *)

(** C7. When the corrected score is deep-equal to the original, the
    learning step calls neither learner and leaves everything they
    persist as it was: no correction record, no change of a preference.
    The learners are called only for a corrected score that is not
    deep-equal to the original. *)
Theorem no_learning_without_correction {W : Type}
    (learn record : pyval → pyval → string → W → W)
    (music_data corrected_data : pyval) (user : string) (w : W) :
  corrected_data = music_data →
  learn_from_corrections learn record music_data corrected_data user w
  = ([], w)
  ∧ ∀ other,
      (learn_from_corrections learn record music_data other user w).1 ≠ []
      → other ≠ music_data.
Proof.
  intros ->. unfold learn_from_corrections. split.
  - by rewrite py_eqb_refl.
  - intros other Hcalls ->. by rewrite py_eqb_refl in Hcalls.
Qed.

Lemma no_learning_without_correction_witness :
  learn_from_corrections spec_learn spec_record three_measures
    three_measures "default_user" (LearnerState ∅ [])
  = ([], LearnerState ∅ []).
Proof.
  apply (no_learning_without_correction spec_learn spec_record
           three_measures three_measures "default_user"
           (LearnerState ∅ []) eq_refl).
Defined.

(** ** Play with a typed measure or range *)

(** The session [session_on (rest_score n) n 1 p] is the one the workflow
    starts on a score of [n] measures for a user without preferences. *)
Example start_session_five :
  (start_session (rest_score 5) "default_user" None (Some (VStr "both"))
                 ∅ Steady).2
  = inr (session_on (rest_score 5) 5 1 Steady).
Proof. reflexivity. Qed.

Section TypedRange.

Context {P : Type} `{!AudioTool P}.
Implicit Types (st : session P) (line : string).

(** A range written [s-e] goes to the player as it is; the session
    moves to [e] when the player returns and reports an invalid range
    when it raises. *)
Lemma step_dash_range st line s e p ok :
  dash_range (normalise line) = Some (s, e) →
  play (player st) (request st (s, e)) = (p, ok) →
  step st line =
    if ok
    then ([Played (request st (s, e)) true],
          Continue (set_measure e (set_player p st)))
    else ([Played (request st (s, e)) false; Print "Invalid range."],
          Continue (set_player p st)).
Proof.
  unfold dash_range, argument, step.
  destruct (PyStr.startswith "play" (normalise line)) eqn:Hplay; [|done].
  rewrite (exec_play _ _ Hplay). unfold do_play, call_play.
  destruct (PyStr.split (normalise line)) as [|w [|rng rest]]; [done..|].
  simpl. destruct (PyStr.contains "-" rng); [|done].
  intros -> ->. by destruct ok.
Qed.

(** A single measure written [m] is played as the range [(m, m)]. *)
Lemma step_single_measure st line m p ok :
  single_measure (normalise line) = Some m →
  play (player st) (request st (m, m)) = (p, ok) →
  step st line =
    if ok
    then ([Played (request st (m, m)) true],
          Continue (set_measure m (set_player p st)))
    else ([Played (request st (m, m)) false;
           Print "Invalid measure number."],
          Continue (set_player p st)).
Proof.
  unfold single_measure, argument, step.
  destruct (PyStr.startswith "play" (normalise line)) eqn:Hplay; [|done].
  rewrite (exec_play _ _ Hplay). unfold do_play, call_play.
  destruct (PyStr.split (normalise line)) as [|w [|rng rest]]; [done..|].
  simpl. destruct (PyStr.contains "-" rng); [done|].
  intros -> ->. by destruct ok.
Qed.

End TypedRange.

(** C1, as the code has it.  The loop has no test for a range whose start
    lies after its end: [play s-e] with [s > e] hands [(s, e)] to the
    player unchanged.  When the player raises, "Invalid range." is printed
    and [current_measure] is unchanged; when the player returns, nothing
    is reported and [current_measure] becomes [e].  The session goes on
    in both cases. *)
Theorem reversed_range_left_to_player {P : Type} `{!AudioTool P}
    (st : session P) (line : string) (s e : Z) (p : P) (ok : bool) :
  dash_range (normalise line) = Some (s, e) →
  s > e →
  play (player st) (request st (s, e)) = (p, ok) →
  step st line =
    if ok
    then ([Played (request st (s, e)) true],
          Continue (set_measure e (set_player p st)))
    else ([Played (request st (s, e)) false; Print "Invalid range."],
          Continue (set_player p st)).
Proof. intros Hrange _ Hplay. by apply step_dash_range. Qed.

Lemma reversed_range_left_to_player_witness :
  step (session_on (rest_score 5) 5 1 (StrictPlayer 5 0)) "Play 5-2" =
    ([Played (PlayRequest (rest_score 5) ["left"; "right"] None (5, 2)) false;
      Print "Invalid range."],
     Continue (session_on (rest_score 5) 5 1 (StrictPlayer 5 0))).
Proof.
  apply (reversed_range_left_to_player
           (session_on (rest_score 5) 5 1 (StrictPlayer 5 0))
           "Play 5-2" 5 2 (StrictPlayer 5 0) false);
    [reflexivity | lia | reflexivity].
Defined.

(** C1 fails as stated: on a score of five measures, from measure 1, with
    a player that returns, [play 5-2] reports nothing and moves the
    session to measure 2. *)
Lemma reversed_range_moves_session :
  (start_session (rest_score 5) "default_user" None (Some (VStr "both"))
                 ∅ Steady).2
  = inr (session_on (rest_score 5) 5 1 Steady)
  ∧ step (session_on (rest_score 5) 5 1 Steady) "play 5-2" =
      ([Played (PlayRequest (rest_score 5) ["left"; "right"] None (5, 2))
               true],
       Continue (session_on (rest_score 5) 5 2 Steady)).
Proof. split; reflexivity. Qed.

(** C2, as the code has it.  [play s-e] with [s <= e] hands [(s, e)] to
    the player exactly as typed, with neither end clamped, and the loop
    itself never rejects it: only an exception of the player is reported
    as an invalid range, the session staying where it was.  When the
    player returns, [current_measure] becomes [e], so it lies within 1
    and [total_measures] afterwards exactly when the typed end does. *)
Theorem ordered_range_is_not_clamped {P : Type} `{!AudioTool P}
    (st : session P) (line : string) (s e : Z) (p : P) (ok : bool) :
  dash_range (normalise line) = Some (s, e) →
  s ≤ e →
  play (player st) (request st (s, e)) = (p, ok) →
  req_range (request st (s, e)) = (s, e)
  ∧ step st line =
      (if ok
       then ([Played (request st (s, e)) true],
             Continue (set_measure e (set_player p st)))
       else ([Played (request st (s, e)) false; Print "Invalid range."],
             Continue (set_player p st)))
  ∧ (in_bounds (set_measure e (set_player p st))
     ↔ 1 ≤ e ≤ total_measures st).
Proof.
  intros Hrange _ Hplay. split; [done|]. split; [|done].
  by apply step_dash_range.
Qed.

Lemma ordered_range_is_not_clamped_witness :
  req_range (request (session_on three_measures 3 1 Steady) (2, 3)) = (2, 3)
  ∧ step (session_on three_measures 3 1 Steady) "play 2-3" =
      ([Played (PlayRequest three_measures ["left"; "right"] None (2, 3))
               true],
       Continue (session_on three_measures 3 3 Steady))
  ∧ (in_bounds (session_on three_measures 3 3 Steady) ↔ 1 ≤ 3 ≤ 3).
Proof.
  apply (ordered_range_is_not_clamped
           (session_on three_measures 3 1 Steady) "play 2-3" 2 3
           Steady true);
    [reflexivity | lia | reflexivity].
Defined.

(** C2 fails as stated: on a score of three measures, [play 2-10] asks
    the player for the range 2 to 10 and leaves the session on measure
    10, and [play 0-2] asks for the range 0 to 2.  With a player that
    refuses what lies outside the score the range is rejected instead. *)
Lemma range_beyond_end_is_kept :
  (start_session three_measures "default_user" None (Some (VStr "both"))
                 ∅ Steady).2
  = inr (session_on three_measures 3 1 Steady)
  ∧ step (session_on three_measures 3 1 Steady) "play 2-10" =
      ([Played (PlayRequest three_measures ["left"; "right"] None (2, 10))
               true],
       Continue (session_on three_measures 3 10 Steady))
  ∧ step (session_on three_measures 3 1 Steady) "play 0-2" =
      ([Played (PlayRequest three_measures ["left"; "right"] None (0, 2))
               true],
       Continue (session_on three_measures 3 2 Steady))
  ∧ step (session_on three_measures 3 1 (StrictPlayer 3 0)) "play 2-10" =
      ([Played (PlayRequest three_measures ["left"; "right"] None (2, 10))
               false;
        Print "Invalid range."],
       Continue (session_on three_measures 3 1 (StrictPlayer 3 0))).
Proof. repeat split. Qed.

(** ** The tempo command *)

Section Tempo.

Context {P : Type} `{!AudioTool P}.
Implicit Types (st : session P) (line : string).

Lemma step_tempo_integer st line bpm :
  tempo_argument (normalise line) = Some bpm →
  step st line =
    ([Print ("Tempo set to " +:+ pretty bpm +:+ " (preference saved)")],
     Continue (with_tempo bpm st)).
Proof.
  unfold tempo_argument, argument, step.
  destruct (PyStr.startswith "tempo" (normalise line)) eqn:Htempo;
    [|done].
  rewrite (exec_tempo _ _ Htempo). unfold do_tempo.
  destruct (PyStr.split (normalise line)) as [|w [|a rest]]; [done..|].
  simpl. by intros ->.
Qed.

Lemma step_tempo_invalid st line :
  PyStr.startswith "tempo" (normalise line) = true →
  tempo_argument (normalise line) = None →
  step st line = ([Print "Invalid tempo."], Continue st).
Proof.
  unfold tempo_argument, argument, step. intros Htempo.
  rewrite Htempo, (exec_tempo _ _ Htempo). unfold do_tempo.
  destruct (PyStr.split (normalise line)) as [|w [|a rest]]; [done..|].
  simpl. by intros ->.
Qed.

(** What a user's preferences hold after an update of one key. *)
Lemma preferences_after_update lib user key v k :
  Library.get_user_preferences
    (Library.update_preference key v user lib) user !! k
  = if decide (key = k) then Some v
    else Library.get_user_preferences lib user !! k.
Proof.
  unfold Library.update_preference at 1.
  unfold Library.get_user_preferences at 1.
  rewrite lookup_insert_eq. simpl. apply lookup_insert.
Qed.

End Tempo.

(** C4, as the code has it.  The tempo command checks only that its
    argument reads as an integer; there is no test of its sign.  For every
    integer, positive or not, it sets the session tempo and stores the
    value for the user under the key [tempo]; for a missing argument or
    one that is not an integer it prints "Invalid tempo." and leaves the
    session tempo and the preference store as they were. *)
Theorem tempo_takes_any_integer {P : Type} `{!AudioTool P}
    (st : session P) (line : string) :
  PyStr.startswith "tempo" (normalise line) = true →
  match tempo_argument (normalise line) with
  | Some bpm =>
      step st line =
        ([Print ("Tempo set to " +:+ pretty bpm +:+ " (preference saved)")],
         Continue (with_tempo bpm st))
      ∧ current_tempo (with_tempo bpm st) = Some (VInt bpm)
      ∧ Library.get_user_preferences (library (with_tempo bpm st))
                                     (user_id st) !! "tempo"
        = Some (VInt bpm)
  | None => step st line = ([Print "Invalid tempo."], Continue st)
  end.
Proof.
  intros Htempo.
  destruct (tempo_argument (normalise line)) as [bpm|] eqn:Harg.
  - split; [by apply step_tempo_integer|]. split; [done|].
    simpl. rewrite preferences_after_update. by case_decide.
  - by apply step_tempo_invalid.
Qed.

Lemma tempo_takes_any_integer_witness :
  step (session_on three_measures 3 1 Steady) "tempo 90" =
    ([Print "Tempo set to 90 (preference saved)"],
     Continue (with_tempo 90 (session_on three_measures 3 1 Steady)))
  ∧ step (session_on three_measures 3 1 Steady) "tempo fast" =
      ([Print "Invalid tempo."],
       Continue (session_on three_measures 3 1 Steady)).
Proof.
  split.
  - exact (proj1 (tempo_takes_any_integer
                    (session_on three_measures 3 1 Steady) "tempo 90"
                    eq_refl)).
  - exact (tempo_takes_any_integer
             (session_on three_measures 3 1 Steady) "tempo fast" eq_refl).
Defined.

(** C4 fails as stated: [tempo 0] and [tempo -5] are taken like any other
    tempo, in the session and in the store. *)
Lemma non_positive_tempo_is_taken :
  step (session_on three_measures 3 1 Steady) "tempo -5" =
    ([Print "Tempo set to -5 (preference saved)"],
     Continue (Session three_measures "default_user" 3 1 (Some (VInt (-5)))
                 ["left"; "right"]
                 {["default_user" := {["tempo" := VInt (-5)]}]} Steady))
  ∧ step (session_on three_measures 3 1 Steady) "tempo 0" =
      ([Print "Tempo set to 0 (preference saved)"],
       Continue (Session three_measures "default_user" 3 1 (Some (VInt 0))
                   ["left"; "right"]
                   {["default_user" := {["tempo" := VInt 0]}]} Steady)).
Proof. split; reflexivity. Qed.

(** C6. The tempo command stores the tempo under the key [tempo]; the
    workflow reads the preferred tempo under the key [default_tempo].
    After [tempo 90] the user's [tempo] is 90, and [default_tempo] is what
    it was before the command, so a later run applies the same preferred
    tempo as before, or none. *)
Theorem tempo_command_writes_another_key {P : Type} `{!AudioTool P}
    (st : session P) :
  let before := Library.get_user_preferences (library st) (user_id st) in
  let after :=
    Library.get_user_preferences (library (with_tempo 90 st)) (user_id st) in
  step st "tempo 90" =
    ([Print "Tempo set to 90 (preference saved)"],
     Continue (with_tempo 90 st))
  ∧ after !! "tempo" = Some (VInt 90)
  ∧ after !! "default_tempo" = before !! "default_tempo"
  ∧ use_preferred_tempo None after = use_preferred_tempo None before.
Proof.
  intros before after.
  assert (after !! "default_tempo" = before !! "default_tempo") as Hkey.
  { unfold after. simpl. rewrite preferences_after_update.
    by case_decide. }
  split; [exact (step_tempo_integer st "tempo 90" 90 eq_refl)|].
  split; [|split; [done|]].
  - unfold after. simpl. rewrite preferences_after_update. by case_decide.
  - unfold use_preferred_tempo. by rewrite Hkey.
Qed.

(** For a user without preferences: after [tempo 90] the store has no
    [default_tempo], and the next run starts without a tempo. *)
Example tempo_90_is_not_read_back :
  let st := with_tempo 90 (session_on three_measures 3 1 Steady) in
  Library.get_user_preferences (library st) "default_user"
  = {["tempo" := VInt 90]}
  ∧ Library.get_user_preferences (library st) "default_user"
      !! "default_tempo" = None
  ∧ (start_session three_measures "default_user" None
                   (Some (VStr "both")) (library st) Steady).2
    = inr (Session three_measures "default_user" 3 1 None
                   ["left"; "right"] (library st) Steady).
Proof. repeat split. Qed.

(** ** The bounds of the current measure *)

Section Bounds.

Context {P : Type} `{!AudioTool P}.
Implicit Types (st : session P) (line cmd : string).

(** The set-up of a session on a dictionary whose [measures], when the
    key is there, is a list. *)
Lemma init_session_total (d : gmap string pyval) (ms : list pyval)
    user tempo hand lib (p : P) :
  default (PList []) (d !! "measures") = PList ms →
  ∃ st, init_session (PDict d) user tempo hand lib p = inr st
        ∧ total_measures st
          = (if bool_decide (ms = []) then 1 else Z.of_nat (length ms))
        ∧ current_measure st = 1
        ∧ in_bounds st.
Proof.
  intros Hms. unfold init_session. simpl. rewrite Hms. simpl.
  eexists. split; [done|]. unfold in_bounds. simpl.
  destruct ms as [|m ms]; simpl.
  - repeat split; lia.
  - repeat split; lia.
Qed.

(** A play command that names a measure ends on it when the player
    returns, and where it was when the player raises. *)
Lemma do_play_target st cmd e out r :
  PyStr.startswith "play" cmd = true →
  play_target cmd = Some e →
  do_play st cmd = (out, r) →
  total_measures (state_of r) = total_measures st
  ∧ (current_measure (state_of r) = e
     ∨ current_measure (state_of r) = current_measure st).
Proof.
  unfold play_target, dash_range, single_measure, argument, do_play,
    call_play.
  intros ->.
  destruct (PyStr.split cmd) as [|w [|rng rest]]; [done..|]. simpl.
  destruct (PyStr.contains "-" rng).
  - destruct (parse_range rng) as [[s e']|]; [|done].
    intros [= ->].
    destruct (play _ _) as [p [|]]; intros [= <- <-]; simpl; auto.
  - destruct (PyStr.int rng) as [m|]; [|done].
    intros [= ->].
    destruct (play _ _) as [p [|]]; intros [= <- <-]; simpl; auto.
Qed.

(** A play command that names no measure leaves the measure alone. *)
Lemma do_play_no_target st cmd out r :
  PyStr.startswith "play" cmd = true →
  play_target cmd = None →
  do_play st cmd = (out, r) →
  total_measures (state_of r) = total_measures st
  ∧ current_measure (state_of r) = current_measure st.
Proof.
  unfold play_target, dash_range, single_measure, argument, do_play,
    call_play.
  intros ->.
  destruct (PyStr.split cmd) as [|w [|rng rest]]; simpl.
  - intros _. destruct (play _ _) as [p [|]]; by intros [= <- <-].
  - intros _. destruct (play _ _) as [p [|]]; by intros [= <- <-].
  - destruct (PyStr.contains "-" rng).
    + destruct (parse_range rng) as [[s e']|]; [done|].
      by intros _ [= <- <-].
    + destruct (PyStr.int rng) as [m|]; [done|].
      by intros _ [= <- <-].
Qed.

(** One turn keeps the current measure within bounds, provided the
    measure a play command names, if it names one, is within bounds. *)
Lemma step_keeps_bounds st line out r :
  in_bounds st →
  (∀ e, play_target (normalise line) = Some e →
        1 ≤ e ≤ total_measures st) →
  step st line = (out, r) →
  in_bounds (state_of r) ∧ total_measures (state_of r) = total_measures st.
Proof.
  unfold step, in_bounds. intros Hin Htarget.
  destruct (exec_cmd_cases st (normalise line))
    as [[_ ->]|[[Hp ->]|[[_ ->]|[[_ ->]|[[_ ->]|[[_ ->]|[_ ->]]]]]]].
  - by intros [= <- <-].
  - intros Hdo.
    destruct (play_target (normalise line)) as [e|] eqn:He.
    + destruct (do_play_target _ _ _ _ _ Hp He Hdo) as [-> [-> | ->]];
        [|done]. split; [|done]. by apply Htarget.
    + by destruct (do_play_no_target _ _ _ _ Hp He Hdo) as [-> ->].
  - unfold do_next, call_play. case_bool_decide as Hlt.
    + destruct (play _ _) as [p [|]]; intros [= <- <-]; simpl;
        (split; [lia|done]).
    + by intros [= <- <-].
  - unfold do_prev, call_play. case_bool_decide as Hgt.
    + destruct (play _ _) as [p [|]]; intros [= <- <-]; simpl;
        (split; [lia|done]).
    + by intros [= <- <-].
  - unfold do_tempo.
    destruct (PyStr.split (normalise line)) as [|w [|a rest]];
      try by intros [= <- <-].
    destruct (PyStr.int a); by intros [= <- <-].
  - unfold do_hand.
    destruct (PyStr.split (normalise line)) as [|w [|a rest]];
      try by intros [= <- <-].
    case_bool_decide; by intros [= <- <-].
  - by intros [= <- <-].
Qed.

(** So does every run of the loop. *)
Lemma run_keeps_bounds (lines : list string) st :
  in_bounds st →
  Forall (λ line, ∀ e, play_target (normalise line) = Some e →
                       1 ≤ e ≤ total_measures st) lines →
  in_bounds (state_of (run st lines).2)
  ∧ total_measures (state_of (run st lines).2) = total_measures st.
Proof.
  revert st. induction lines as [|line rest IH]; intros st Hin Hall.
  - done.
  - apply Forall_cons in Hall as [Hline Hrest]. simpl.
    destruct (step st line) as [out r] eqn:Hstep.
    destruct (step_keeps_bounds _ _ _ _ Hin Hline Hstep) as [Hin' Htot].
    destruct r as [st'| |]; [|done..]. simpl in Hin', Htot.
    destruct (IH st' Hin') as [Hfin Hfin_tot].
    { by rewrite Htot. }
    destruct (run st' rest) as [out' r']. simpl in *.
    split; [done|]. by rewrite Hfin_tot.
Qed.

End Bounds.

(** C9, as the code has it.  On a score whose [measures] is a list, the
    session starts with [total_measures] the number of measures, or 1 when
    there is none, and on measure 1.  [current_measure] then stays between
    1 and [total_measures] through every sequence of commands in which
    the play commands that name a measure or a range name an end within
    these bounds: [exit], [next], [prev], the tempo and hand commands,
    unknown commands and play without a range keep the bounds, and a play
    command that names an end puts the session on that end as typed. *)
Theorem bounds_kept_for_targets_within {P : Type} `{!AudioTool P}
    (d : gmap string pyval) (ms : list pyval) (user : string)
    (tempo hand : option pref_value)
    (lib : gmap string (gmap string pref_value)) (p : P)
    (lines : list string) :
  default (PList []) (d !! "measures") = PList ms →
  ∃ st0,
    init_session (PDict d) user tempo hand lib p = inr st0
    ∧ total_measures st0
      = (if bool_decide (ms = []) then 1 else Z.of_nat (length ms))
    ∧ current_measure st0 = 1
    ∧ in_bounds st0
    ∧ (Forall (λ line, ∀ e, play_target (normalise line) = Some e →
                            1 ≤ e ≤ total_measures st0) lines →
       in_bounds (state_of (run st0 lines).2)
       ∧ total_measures (state_of (run st0 lines).2) = total_measures st0).
Proof.
  intros Hms.
  destruct (init_session_total d ms user tempo hand lib p Hms)
    as (st0 & Hinit & Htot & Hcur & Hin).
  exists st0. do 4 (split; [done|]).
  intros Hall. by apply run_keeps_bounds.
Qed.

Lemma bounds_kept_for_targets_within_witness :
  in_bounds
    (state_of
       (run (session_on three_measures 3 1 Steady)
            ["play 2-3"; "next"; "prev"; "tempo 90"]).2).
Proof.
  destruct (bounds_kept_for_targets_within
              (rest_score_dict 3) (rest_measure <$> seqZ 1 3)
              "default_user" None None ∅ Steady
              ["play 2-3"; "next"; "prev"; "tempo 90"] eq_refl)
    as (st0 & Hinit & _ & _ & _ & Hrun).
  change (@inr exn _ (session_on three_measures 3 1 Steady) = inr st0)
    in Hinit.
  injection Hinit as <-. apply Hrun.
  apply Forall_cons_2.
  { intros e He. vm_compute in He. injection He as <-. simpl. lia. }
  repeat (apply Forall_cons_2;
          [intros e He; vm_compute in He; discriminate He|]).
  apply Forall_nil_2.
Defined.

(** C9 fails as stated: on a score of three measures, [play 7] leaves the
    session on measure 7 and [play 0] on measure 0. *)
Lemma play_beyond_end_leaves_bounds :
  init_session three_measures "default_user" None None ∅ Steady
  = inr (session_on three_measures 3 1 Steady)
  ∧ step (session_on three_measures 3 1 Steady) "play 7" =
      ([Played (PlayRequest three_measures ["left"; "right"] None (7, 7))
               true],
       Continue (session_on three_measures 3 7 Steady))
  ∧ step (session_on three_measures 3 1 Steady) "play 0" =
      ([Played (PlayRequest three_measures ["left"; "right"] None (0, 0))
               true],
       Continue (session_on three_measures 3 0 Steady)).
Proof. repeat split. Qed.

(** The scenario of the spec: three measures, [play 2-3], [next], [prev],
    [tempo 90], then the end of the input. *)
Example three_measure_scenario :
  run (session_on three_measures 3 1 Steady)
      ["play 2-3"; "next"; "prev"; "tempo 90"]
  = ([Prompt "(Measure 1/3) > ";
      Played (PlayRequest three_measures ["left"; "right"] None (2, 3)) true;
      Prompt "(Measure 3/3) > ";
      Print "End of piece.";
      Prompt "(Measure 3/3) > ";
      Played (PlayRequest three_measures ["left"; "right"] None (2, 2)) true;
      Prompt "(Measure 2/3) > ";
      Print "Tempo set to 90 (preference saved)";
      Prompt "(Measure 2/3) > "],
     Raise EOFError
       (Session three_measures "default_user" 3 2 (Some (VInt 90))
          ["left"; "right"]
          {["default_user" := {["tempo" := VInt 90]}]} Steady)).
Proof. reflexivity. Qed.

(** * Further properties of the workflow *)

(** ** What a turn of the loop can change *)

Section Frame.

Context {P : Type} `{!AudioTool P}.
Implicit Types (st : session P) (line cmd : string).

(** A turn leaves the score, the user and the number of measures alone,
    and every call of the player it makes is for the session's score. *)
Lemma exec_cmd_constants st cmd out r :
  exec_cmd st cmd = (out, r) →
  corrected_data (state_of r) = corrected_data st
  ∧ user_id (state_of r) = user_id st
  ∧ total_measures (state_of r) = total_measures st
  ∧ Forall (λ ev, ∀ req, played_request ev = Some req →
                         req_data req = corrected_data st) out.
Proof.
  destruct (exec_cmd_cases st cmd)
    as [[_ ->]|[[_ ->]|[[_ ->]|[[_ ->]|[[_ ->]|[[_ ->]|[_ ->]]]]]]];
    unfold do_play, do_next, do_prev, do_tempo, do_hand, call_play;
    intros Hexec; repeat case_match; simplify_eq/=;
    repeat split; repeat constructor; intros ? [= <-]; done.
Qed.

End Frame.

(** ** Integers typed without a minus sign *)

Lemma digit_nonneg (a : ascii) (d : Z) : PyStr.digit a = Some d → 0 ≤ d.
Proof.
  unfold PyStr.digit. case_match eqn:Hrange; [|done].
  intros [= <-]. apply andb_true_iff in Hrange as [Hlo _].
  apply N.leb_le in Hlo. lia.
Qed.

Lemma digits_nonneg (s : string) (acc : Z) (seen : bool) (z : Z) :
  0 ≤ acc → PyStr.digits acc seen s = Some z → 0 ≤ z.
Proof.
  revert acc seen. induction s as [|a s IH]; intros acc seen Hacc; simpl.
  - destruct seen; [|done]. by intros [= <-].
  - destruct (PyStr.digit a) as [d|] eqn:Hd.
    + apply digit_nonneg in Hd. apply IH. lia.
    + case_match; [|done]. by apply IH.
Qed.

(** [int] gives a negative integer only for a word that starts with the
    minus sign. *)
Lemma int_negative_starts_with_minus (s : string) (z : Z) :
  PyStr.int s = Some z → z < 0 → ∃ s', s = String "-" s'.
Proof.
  unfold PyStr.int. case_match; [done|].
  destruct s as [|a s]; [by intros ?%digits_nonneg; [lia|] |].
  destruct (decide (a = "-"%char)) as [->|Hminus]; [by eauto|].
  destruct (decide (a = "+"%char)) as [->|Hplus].
  - intros ?%digits_nonneg; [lia|done].
  - assert (match a with
            | "+"%char => PyStr.digits 0 false s
            | "-"%char => Z.opp <$> PyStr.digits 0 false s
            | _ => PyStr.digits 0 false (String a s)
            end = PyStr.digits 0 false (String a s)) as ->.
    { by destruct a as [[] [] [] [] [] [] [] []]. }
    intros ?%digits_nonneg; [lia|done].
Qed.

(** No field of a split holds a separator. *)
Lemma fields_without_separator (p : ascii → bool) (s w : string) :
  w ∈ PyStr.fields p s →
  ∀ a r, w = String a r → p a = false.
Proof.
  revert w. induction s as [|b s IH]; intros w; simpl.
  - intros ->%list_elem_of_singleton. done.
  - destruct (p b) eqn:Hb.
    + intros [->|Hw]%elem_of_cons; [done|]. by apply IH.
    + destruct (PyStr.fields p s) as [|w0 ws] eqn:Hfs.
      * intros ->%list_elem_of_singleton a r [= <- <-]. done.
      * intros [->|Hw]%elem_of_cons.
        -- intros a r [= <- <-]. done.
        -- apply IH. by right.
Qed.

(** Both ends of a range that was read are zero or more. *)
Lemma parse_range_nonneg (rng : string) (s e : Z) :
  parse_range rng = Some (s, e) → 0 ≤ s ∧ 0 ≤ e.
Proof.
  unfold parse_range, PyStr.split_on.
  destruct (PyStr.fields _ rng) as [|a [|b [|c fs]]] eqn:Hfields;
    try done.
  destruct (PyStr.int a) as [x|] eqn:Ha; [|done].
  destruct (PyStr.int b) as [y|] eqn:Hb; [|done].
  simpl. intros [= <- <-].
  split.
  - destruct (decide (x < 0)) as [Hneg|]; [|lia].
    destruct (int_negative_starts_with_minus _ _ Ha Hneg) as [a' ->].
    pose proof (fields_without_separator
                  (λ a, bool_decide (a = "-"%char)) rng (String "-" a')
                  ltac:(rewrite Hfields; by left) _ _ eq_refl) as Hno.
    done.
  - destruct (decide (y < 0)) as [Hneg|]; [|lia].
    destruct (int_negative_starts_with_minus _ _ Hb Hneg) as [b' ->].
    pose proof (fields_without_separator
                  (λ a, bool_decide (a = "-"%char)) rng (String "-" b')
                  ltac:(rewrite Hfields; right; by left) _ _ eq_refl)
      as Hno.
    done.
Qed.

(** A word without a minus sign reads as zero or more. *)
Lemma int_without_minus_nonneg (w : string) (m : Z) :
  PyStr.contains "-" w = false → PyStr.int w = Some m → 0 ≤ m.
Proof.
  intros Hno Hint. destruct (decide (m < 0)) as [Hneg|]; [|lia].
  destruct (int_negative_starts_with_minus _ _ Hint Hneg) as [w' ->].
  done.
Qed.

(** ** Invariants of a turn and of a run *)

Section Invariants.

Context {P : Type} `{!AudioTool P}.
Implicit Types (st : session P) (line cmd : string).

(** What holds before a run and is kept by every turn holds after the
    run, and what every turn's events satisfy the run's events satisfy. *)
Lemma run_invariant (I : session P → Prop) (E : event → Prop) :
  (∀ st, I st → E (prompt st)) →
  (∀ st line out r, I st → step st line = (out, r) →
                    I (state_of r) ∧ Forall E out) →
  ∀ lines st, I st →
    I (state_of (run st lines).2) ∧ Forall E (run st lines).1.
Proof.
  intros Hprompt Hstep lines.
  induction lines as [|line rest IH]; intros st Hst; simpl.
  - split; [done|]. repeat constructor. by apply Hprompt.
  - destruct (step st line) as [out r] eqn:Hs.
    destruct (Hstep _ _ _ _ Hst Hs) as [Hr Hout].
    destruct r as [st'| |]; simpl in *;
      try (split; [done|]; constructor; [by apply Hprompt|done]).
    destruct (IH st' Hr) as [Hfin Hevs].
    destruct (run st' rest) as [out' r']. simpl in *.
    split; [done|]. constructor; [by apply Hprompt|].
    by apply Forall_app.
Qed.

Lemma exec_cmd_measure_nonneg st cmd out r :
  0 ≤ current_measure st →
  exec_cmd st cmd = (out, r) →
  0 ≤ current_measure (state_of r).
Proof.
  intros Hcur.
  destruct (exec_cmd_cases st cmd)
    as [[_ ->]|[[_ ->]|[[_ ->]|[[_ ->]|[[_ ->]|[[_ ->]|[_ ->]]]]]]];
    unfold do_play, do_next, do_prev, do_tempo, do_hand, call_play;
    intros Hexec; repeat case_match; simplify_eq/=; try lia.
  all: try (by eapply parse_range_nonneg).
  all: try (by eapply int_without_minus_nonneg).
  all: match goal with H : bool_decide (_ > 1) = true |- _ =>
         apply bool_decide_eq_true in H; lia end.
Qed.

Lemma exec_cmd_hands st cmd out r :
  valid_hands st →
  exec_cmd st cmd = (out, r) →
  valid_hands (state_of r).
Proof.
  unfold valid_hands. intros Hhands.
  destruct (exec_cmd_cases st cmd)
    as [[_ ->]|[[_ ->]|[[_ ->]|[[_ ->]|[[_ ->]|[[_ ->]|[_ ->]]]]]]];
    unfold do_play, do_next, do_prev, do_tempo, do_hand, call_play;
    intros Hexec; repeat case_match; simplify_eq/=; try done.
  - do 2 right. by left.
  - match goal with H : bool_decide (_ ∈ _) = true |- _ =>
      apply bool_decide_eq_true in H;
      rewrite !elem_of_cons, elem_of_nil in H;
      destruct H as [->|[->|[->|[]]]] end; [by left|right; by left|done].
Qed.

Lemma exec_cmd_writes st cmd out r :
  exec_cmd st cmd = (out, r) →
  ∃ ws, Forall allowed_write ws
        ∧ (length ws ≤ 1)%nat
        ∧ library (state_of r)
          = foldl (apply_write (user_id st)) (library st) ws.
Proof.
  destruct (exec_cmd_cases st cmd)
    as [[_ ->]|[[_ ->]|[[_ ->]|[[_ ->]|[[_ ->]|[[_ ->]|[_ ->]]]]]]];
    unfold do_play, do_next, do_prev, do_tempo, do_hand, call_play;
    intros Hexec; repeat case_match; simplify_eq/=;
    try (exists []; split; [constructor|split; [simpl; lia|done]]).
  { match goal with H : PyStr.int _ = Some ?z |- _ =>
      exists [WriteTempo z] end.
    split; [apply Forall_cons_2; [exact I|constructor]|].
    split; [simpl; lia|reflexivity]. }
  all: match goal with H : bool_decide (?h ∈ _) = true |- _ =>
         exists [WriteHand h]; apply bool_decide_eq_true in H end.
  all: split; [|split; [simpl; lia|reflexivity]].
  all: apply Forall_cons_2; [done|constructor].
Qed.

End Invariants.

(** ** The hand command *)

(** X1. A hand command with a selection among left, right and both sets
    the hands of the session (both stands for left and right), stores the
    selection for the user under the key [hand] and says so; any other
    selection is refused with a message and changes nothing. *)
Theorem hand_command_sets_or_refuses {P : Type} `{!AudioTool P}
    (st : session P) (line h : string) :
  hand_argument (normalise line) = Some h →
  if bool_decide (h ∈ ["left"; "right"; "both"])
  then step st line =
         ([Print ("Hand set to " +:+ h +:+ " (preference saved)")],
          Continue (with_hand h st))
       ∧ current_hands (with_hand h st)
         = (if bool_decide (h = "both") then ["left"; "right"] else [h])
       ∧ Library.get_user_preferences (library (with_hand h st))
                                      (user_id st) !! "hand"
         = Some (VStr h)
  else step st line =
         ([Print "Invalid hand. Use left, right, or both."], Continue st).
Proof.
  unfold hand_argument, argument, step.
  destruct (PyStr.startswith "hand" (normalise line)) eqn:Hhand; [|done].
  rewrite (exec_hand _ _ Hhand). unfold do_hand.
  destruct (PyStr.split (normalise line)) as [|w [|a rest]]; [done..|].
  intros [= ->]. case_bool_decide; [|done].
  split; [done|]. split; [done|].
  simpl. rewrite preferences_after_update. by case_decide.
Qed.

Lemma hand_command_sets_or_refuses_witness :
  step (session_on three_measures 3 1 Steady) " Hand LEFT " =
    ([Print "Hand set to left (preference saved)"],
     Continue (with_hand "left" (session_on three_measures 3 1 Steady)))
  ∧ step (session_on three_measures 3 1 Steady) "hand up" =
      ([Print "Invalid hand. Use left, right, or both."],
       Continue (session_on three_measures 3 1 Steady)).
Proof.
  split.
  - exact (proj1 (hand_command_sets_or_refuses
                    (session_on three_measures 3 1 Steady) " Hand LEFT "
                    "left" eq_refl)).
  - exact (hand_command_sets_or_refuses
             (session_on three_measures 3 1 Steady) "hand up" "up"
             eq_refl).
Defined.

(** X2. The hands of a session are always left, right, or left and
    right: the set-up builds one of these three lists from the hand
    argument, whatever it is, and no sequence of commands leaves them. *)
Theorem hands_stay_valid {P : Type} `{!AudioTool P}
    (data : pyval) (user : string) (tempo hand : option pref_value)
    (lib : gmap string (gmap string pref_value)) (p : P)
    (st0 : session P) (lines : list string) :
  init_session data user tempo hand lib p = inr st0 →
  valid_hands st0 ∧ valid_hands (state_of (run st0 lines).2).
Proof.
  intros Hinit.
  assert (valid_hands st0) as Hstart.
  { unfold init_session in Hinit. unfold valid_hands.
    repeat case_match; simplify_eq/=;
      first [by left|right; by left|do 2 right; by left]. }
  split; [done|].
  apply (run_invariant valid_hands (λ _, True)); [done| |done].
  intros st line out r Hst Hstep.
  split; [by eapply exec_cmd_hands|]. by apply Forall_true.
Qed.

Lemma hands_stay_valid_witness :
  valid_hands (session_on three_measures 3 1 Steady)
  ∧ valid_hands
      (state_of
         (run (session_on three_measures 3 1 Steady)
              ["hand right"; "hand both"; "hand up"; "hand"]).2).
Proof.
  apply (hands_stay_valid three_measures "default_user" None None ∅ Steady
           (session_on three_measures 3 1 Steady)
           ["hand right"; "hand both"; "hand up"; "hand"]).
  reflexivity.
Defined.

(** ** What no sequence of commands does *)

Section Never.

Context {P : Type} `{!AudioTool P}.
Implicit Types (st : session P) (line cmd : string).

(** A session that was set up starts on measure 1 of at least one. *)
Lemma init_session_start data user tempo hand lib (p : P) st0 :
  init_session data user tempo hand lib p = inr st0 →
  current_measure st0 = 1 ∧ 1 ≤ total_measures st0
  ∧ corrected_data st0 = data ∧ user_id st0 = user
  ∧ current_tempo st0 = tempo ∧ library st0 = lib ∧ player st0 = p.
Proof.
  unfold init_session, py_get, py_len.
  intros Hinit. repeat case_match; simplify_eq/=;
    repeat match goal with
           | H : bool_decide (_ = 0) = false |- _ =>
               apply bool_decide_eq_false in H
           end;
    repeat split; try done; lia.
Qed.

Lemma exec_cmd_requests_nonneg st cmd out r :
  0 ≤ current_measure st → 1 ≤ total_measures st →
  exec_cmd st cmd = (out, r) →
  Forall (λ ev, ∀ req, played_request ev = Some req →
                       0 ≤ (req_range req).1 ∧ 0 ≤ (req_range req).2) out.
Proof.
  intros Hcur Htot.
  destruct (exec_cmd_cases st cmd)
    as [[_ ->]|[[_ ->]|[[_ ->]|[[_ ->]|[[_ ->]|[[_ ->]|[_ ->]]]]]]];
    unfold do_play, do_next, do_prev, do_tempo, do_hand, call_play;
    intros Hexec; repeat case_match; simplify_eq/=;
    repeat first [apply Forall_nil_2 | apply Forall_cons_2];
    intros ? [= <-]; simpl; try lia.
  all: try (by eapply parse_range_nonneg).
  all: try (split; by eapply int_without_minus_nonneg).
  all: match goal with H : bool_decide (_ > 1) = true |- _ =>
         apply bool_decide_eq_true in H; lia end.
Qed.

Lemma preferences_of_another_user lib user key v u :
  u ≠ user →
  Library.get_user_preferences
    (Library.update_preference key v user lib) u
  = Library.get_user_preferences lib u.
Proof.
  intros Hu. unfold Library.update_preference.
  unfold Library.get_user_preferences at 1 3.
  by rewrite lookup_insert_ne.
Qed.

(** Writes of the loop leave the other users and the other keys alone. *)
Lemma writes_leave_other_entries user lib (ws : list pref_write) u k :
  u ≠ user ∨ (k ≠ "tempo" ∧ k ≠ "hand") →
  Library.get_user_preferences (foldl (apply_write user) lib ws) u !! k
  = Library.get_user_preferences lib u !! k.
Proof.
  intros Hother. revert lib.
  induction ws as [|w ws IH]; intros lib; simpl; [done|].
  rewrite IH. unfold apply_write.
  destruct (decide (u = user)) as [->|Hu].
  - rewrite preferences_after_update. case_decide as Hk; [|done].
    destruct Hother as [|[Ht Hh]]; [done|].
    destruct w; simpl in Hk; congruence.
  - by rewrite preferences_of_another_user.
Qed.

End Never.

(** X3. The current measure of a session is never negative, and no call
    of the player carries a negative measure: a word with a minus sign
    is read as a range, whose two ends cannot hold one, so [play -3] is
    an invalid range and not a measure. *)
Theorem measure_never_negative {P : Type} `{!AudioTool P}
    (data : pyval) (user : string) (tempo hand : option pref_value)
    (lib : gmap string (gmap string pref_value)) (p : P)
    (st0 : session P) (lines : list string) :
  init_session data user tempo hand lib p = inr st0 →
  0 ≤ current_measure (state_of (run st0 lines).2)
  ∧ Forall (λ ev, ∀ req, played_request ev = Some req →
                         0 ≤ (req_range req).1 ∧ 0 ≤ (req_range req).2)
           (run st0 lines).1.
Proof.
  intros (Hcur & Htot & _)%init_session_start.
  destruct (run_invariant
              (λ st, 0 ≤ current_measure st
                     ∧ total_measures st = total_measures st0)
              (λ ev, ∀ req, played_request ev = Some req →
                            0 ≤ (req_range req).1 ∧ 0 ≤ (req_range req).2))
    with (lines := lines) (st := st0) as [[Hfin _] Hevs];
    [done| |split; [lia|done]|done].
  intros st line out r [Hst Hsame] Hstep. split; [split|].
  - by eapply exec_cmd_measure_nonneg.
  - destruct (exec_cmd_constants _ _ _ _ Hstep) as (_ & _ & -> & _).
    done.
  - eapply exec_cmd_requests_nonneg; [done| |done]. lia.
Qed.

Lemma measure_never_negative_witness :
  0 ≤ current_measure
        (state_of
           (run (session_on three_measures 3 1 Steady)
                ["play -3"; "play 0"; "prev"; "play 2--1"]).2)
  ∧ Forall (λ ev, ∀ req, played_request ev = Some req →
                         0 ≤ (req_range req).1 ∧ 0 ≤ (req_range req).2)
           (run (session_on three_measures 3 1 Steady)
                ["play -3"; "play 0"; "prev"; "play 2--1"]).1.
Proof.
  apply (measure_never_negative three_measures "default_user" None None
           ∅ Steady (session_on three_measures 3 1 Steady)
           ["play -3"; "play 0"; "prev"; "play 2--1"]).
  reflexivity.
Defined.

(** X4. No sequence of commands changes the score of the session, its
    user or its number of measures, and every call of the player is for
    that score. *)
Theorem session_constants_kept {P : Type} `{!AudioTool P}
    (st : session P) (lines : list string) :
  corrected_data (state_of (run st lines).2) = corrected_data st
  ∧ user_id (state_of (run st lines).2) = user_id st
  ∧ total_measures (state_of (run st lines).2) = total_measures st
  ∧ Forall (λ ev, ∀ req, played_request ev = Some req →
                         req_data req = corrected_data st)
           (run st lines).1.
Proof.
  destruct (run_invariant
              (λ st', corrected_data st' = corrected_data st
                      ∧ user_id st' = user_id st
                      ∧ total_measures st' = total_measures st)
              (λ ev, ∀ req, played_request ev = Some req →
                            req_data req = corrected_data st))
    with (lines := lines) (st := st) as [(Hd & Hu & Ht) Hevs];
    [done| |done|done].
  intros st' line out r (Hd & Hu & Ht) Hstep.
  destruct (exec_cmd_constants _ _ _ _ Hstep) as (-> & -> & -> & Hout).
  split; [done|]. eapply Forall_impl; [exact Hout|].
  simpl. intros ev Hev req Hreq. rewrite <- Hd. by apply Hev.
Qed.

(** X5. A session writes to the preference store only through the tempo
    and the hand command, at most once per command, for its own user:
    a tempo under the key [tempo], and one of left, right and both under
    the key [hand].  The preferences of every other user and every other
    key of its user, [default_tempo] and [preferred_hand] among them,
    are after the session what they were before. *)
Theorem session_writes_tempo_and_hand_only {P : Type} `{!AudioTool P}
    (st : session P) (lines : list string) :
  ∃ ws : list pref_write,
    Forall allowed_write ws
    ∧ (length ws ≤ length lines)%nat
    ∧ library (state_of (run st lines).2)
      = foldl (apply_write (user_id st)) (library st) ws
    ∧ ∀ u k, u ≠ user_id st ∨ (k ≠ "tempo" ∧ k ≠ "hand") →
        Library.get_user_preferences
          (library (state_of (run st lines).2)) u !! k
        = Library.get_user_preferences (library st) u !! k.
Proof.
  cut (∃ ws : list pref_write,
         Forall allowed_write ws
         ∧ (length ws ≤ length lines)%nat
         ∧ library (state_of (run st lines).2)
           = foldl (apply_write (user_id st)) (library st) ws).
  { intros (ws & Hok & Hlen & Hlib). exists ws.
    do 3 (split; [done|]). intros u k Hother.
    rewrite Hlib. by apply writes_leave_other_entries. }
  revert st. induction lines as [|line rest IH]; intros st; simpl.
  - exists []. split; [constructor|]. by split.
  - destruct (step st line) as [out r] eqn:Hstep.
    destruct (exec_cmd_writes _ _ _ _ Hstep) as (ws1 & Hok1 & Hlen1 & Hlib1).
    destruct (exec_cmd_constants _ _ _ _ Hstep) as (_ & Huser & _).
    destruct r as [st'| |]; simpl in *;
      try (exists ws1; split; [done|]; split; [lia|done]).
    destruct (IH st') as (ws2 & Hok2 & Hlen2 & Hlib2).
    destruct (run st' rest) as [out' r']. simpl in *.
    exists (ws1 ++ ws2). split; [by apply Forall_app|].
    split; [rewrite length_app; lia|].
    by rewrite foldl_app, <- Hlib1, <- Huser.
Qed.

(** ** How the loop ends *)

Section Ending.

Context {P : Type} `{!AudioTool P}.
Implicit Types (st : session P) (line cmd : string).

(** With a player that returns and a command that is not a hand command
    without selection, a turn either leaves the loop by [exit] or goes
    on. *)
Lemma exec_cmd_safe st cmd out r :
  (∀ (p : P) req, (play p req).2 = true) →
  bare_hand cmd = false →
  exec_cmd st cmd = (out, r) →
  (cmd = "exit" ∧ r = Break st) ∨ (cmd ≠ "exit" ∧ ∃ st', r = Continue st').
Proof.
  intros Hreturns Hbare.
  destruct (exec_cmd_cases st cmd)
    as [[-> ->]|[[Hc ->]|[[-> ->]|[[-> ->]|[[Hc ->]|[[Hc ->]|[Hc ->]]]]]]].
  - intros [= <- <-]. by left.
  - intros Hdo. right. split; [by intros ->|].
    revert Hdo. unfold do_play, call_play.
    repeat case_match; intros; simplify_eq/=; eauto.
    all: match goal with H : play ?p ?req = (_, false) |- _ =>
           specialize (Hreturns p req); rewrite H in Hreturns; done end.
  - intros Hdo. right. split; [done|].
    revert Hdo. unfold do_next, call_play.
    repeat case_match; intros; simplify_eq/=; eauto.
    all: match goal with H : play ?p ?req = (_, false) |- _ =>
           specialize (Hreturns p req); rewrite H in Hreturns; done end.
  - intros Hdo. right. split; [done|].
    revert Hdo. unfold do_prev, call_play.
    repeat case_match; intros; simplify_eq/=; eauto.
    all: match goal with H : play ?p ?req = (_, false) |- _ =>
           specialize (Hreturns p req); rewrite H in Hreturns; done end.
  - intros Hdo. right. split; [by intros ->|].
    revert Hdo. unfold do_tempo.
    repeat case_match; intros; simplify_eq/=; eauto.
  - intros Hdo. right. split; [by intros ->|].
    revert Hdo Hbare. unfold do_hand, bare_hand, argument. rewrite Hc.
    repeat case_match; intros; simplify_eq/=; eauto.
  - intros [= <- <-]. right. split; [by intros ->|]. eauto.
Qed.

End Ending.



(** ** Play with an argument *)

Section PlayArgument.

Context {P : Type} `{!AudioTool P}.
Implicit Types (st : session P) (line cmd rng : string).

Lemma do_play_argument st cmd rng :
  argument cmd = Some rng →
  do_play st cmd =
    if PyStr.contains "-" rng then
      match parse_range rng with
      | Some (s, e) =>
          let '(st', ev, ok) := call_play st (s, e) in
          if ok then ([ev], Continue (set_measure e st'))
          else ([ev; Print "Invalid range."], Continue st')
      | None => ([Print "Invalid range."], Continue st)
      end
    else
      match PyStr.int rng with
      | Some m =>
          let '(st', ev, ok) := call_play st (m, m) in
          if ok then ([ev], Continue (set_measure m st'))
          else ([ev; Print "Invalid measure number."], Continue st')
      | None => ([Print "Invalid measure number."], Continue st)
      end.
Proof.
  unfold argument, do_play.
  destruct (PyStr.split cmd) as [|w [|a rest]]; [done..|].
  by intros [= ->].
Qed.

(** A word that starts with the minus sign is no range. *)
Lemma parse_range_leading_minus (r : string) :
  parse_range (String "-" r) = None.
Proof.
  unfold parse_range, PyStr.split_on. simpl.
  by destruct (PyStr.fields _ r) as [|b [|c fs]].
Qed.

Lemma step_hand_selected st line h :
  hand_argument (normalise line) = Some h →
  h ∈ ["left"; "right"; "both"] →
  step st line =
    ([Print ("Hand set to " +:+ h +:+ " (preference saved)")],
     Continue (with_hand h st)).
Proof.
  unfold hand_argument, argument, step.
  destruct (PyStr.startswith "hand" (normalise line)) eqn:Hhand; [|done].
  rewrite (exec_hand _ _ Hhand). unfold do_hand.
  destruct (PyStr.split (normalise line)) as [|w [|a rest]]; [done..|].
  intros [= ->] Hin. by rewrite bool_decide_eq_true_2.
Qed.

End PlayArgument.

(** X7. [play m] with a word [m] without a minus sign: when [m] reads as
    an integer the player is called on the single measure [(m, m)]; the
    session moves to [m] when the player returns, and "Invalid measure
    number." is printed, the measure staying, when it raises.  When [m]
    does not read as an integer the same message is printed, the player
    is not called and nothing changes. *)
Theorem play_single_measure {P : Type} `{!AudioTool P}
    (st : session P) (line rng : string) :
  PyStr.startswith "play" (normalise line) = true →
  argument (normalise line) = Some rng →
  PyStr.contains "-" rng = false →
  match PyStr.int rng with
  | Some m =>
      let res := play (player st) (request st (m, m)) in
      step st line =
        if res.2
        then ([Played (request st (m, m)) true],
              Continue (set_measure m (set_player res.1 st)))
        else ([Played (request st (m, m)) false;
               Print "Invalid measure number."],
              Continue (set_player res.1 st))
  | None => step st line = ([Print "Invalid measure number."], Continue st)
  end.
Proof.
  intros Hplay Harg Hdash. unfold step.
  rewrite (exec_play _ _ Hplay), (do_play_argument _ _ _ Harg), Hdash.
  destruct (PyStr.int rng) as [m|]; [|done].
  unfold call_play. simpl.
  by destruct (play (player st) (request st (m, m))) as [p [|]].
Qed.

Lemma play_single_measure_witness :
  step (session_on three_measures 3 1 Steady) "play 2" =
    ([Played (PlayRequest three_measures ["left"; "right"] None (2, 2)) true],
     Continue (session_on three_measures 3 2 Steady))
  ∧ step (session_on three_measures 3 1 Steady) "play two" =
      ([Print "Invalid measure number."],
       Continue (session_on three_measures 3 1 Steady)).
Proof.
  split.
  - exact (play_single_measure (session_on three_measures 3 1 Steady)
             "play 2" "2" eq_refl eq_refl eq_refl).
  - exact (play_single_measure (session_on three_measures 3 1 Steady)
             "play two" "two" eq_refl eq_refl eq_refl).
Defined.

(** X8. A play command whose argument has a minus sign but is not two
    integers around one minus sign is refused with "Invalid range."
    before the player is called, and nothing changes.  This is the case
    of every argument that starts with the minus sign: a negative
    measure can be neither played nor reached. *)
Theorem malformed_range_is_refused {P : Type} `{!AudioTool P}
    (st : session P) (line rng : string) :
  PyStr.startswith "play" (normalise line) = true →
  argument (normalise line) = Some rng →
  (∃ r, rng = String "-" r)
  ∨ (PyStr.contains "-" rng = true ∧ parse_range rng = None) →
  step st line = ([Print "Invalid range."], Continue st).
Proof.
  intros Hplay Harg Hbad. unfold step.
  rewrite (exec_play _ _ Hplay), (do_play_argument _ _ _ Harg).
  destruct Hbad as [[r ->]|[-> ->]]; [|done].
  by rewrite parse_range_leading_minus.
Qed.

Lemma malformed_range_is_refused_witness :
  step (session_on three_measures 3 1 Steady) "play -3" =
    ([Print "Invalid range."],
     Continue (session_on three_measures 3 1 Steady))
  ∧ step (session_on three_measures 3 1 Steady) "play 1-2-3" =
      ([Print "Invalid range."],
       Continue (session_on three_measures 3 1 Steady)).
Proof.
  split.
  - apply (malformed_range_is_refused
             (session_on three_measures 3 1 Steady) "play -3" "-3");
      [reflexivity..|]. left. by exists "3".
  - apply (malformed_range_is_refused
             (session_on three_measures 3 1 Steady) "play 1-2-3" "1-2-3");
      [reflexivity..|]. right. by split.
Defined.

(** X9. The hand and the tempo a user sets reach the player: after a
    valid hand command and a tempo command with an integer, a play
    command without a range calls the player with these hands, this
    tempo and the range from the current measure to the last. *)
Theorem settings_reach_the_player {P : Type} `{!AudioTool P}
    (st : session P) (l1 l2 h : string) (bpm : Z) :
  hand_argument (normalise l1) = Some h →
  h ∈ ["left"; "right"; "both"] →
  tempo_argument (normalise l2) = Some bpm →
  ∃ ok,
    Played (PlayRequest (corrected_data st)
              (if bool_decide (h = "both") then ["left"; "right"] else [h])
              (Some (VInt bpm))
              (current_measure st, total_measures st)) ok
    ∈ (run st [l1; l2; "play"]).1.
Proof.
  intros Hhand Hin Htempo. simpl.
  rewrite (step_hand_selected _ _ _ Hhand Hin).
  rewrite (step_tempo_integer _ _ _ Htempo).
  change (step ?s "play") with (do_play s "play").
  unfold do_play, call_play. simpl.
  destruct (play _ _) as [p [|]]; eexists; simpl;
    do 5 right; by left.
Qed.

Lemma settings_reach_the_player_witness :
  ∃ ok,
    Played (PlayRequest three_measures ["right"] (Some (VInt 72)) (1, 3)) ok
    ∈ (run (session_on three_measures 3 1 Steady)
           ["hand right"; "tempo 72"; "play"]).1.
Proof.
  apply (settings_reach_the_player (session_on three_measures 3 1 Steady)
           "hand right" "tempo 72" "right" 72);
    [reflexivity| |reflexivity].
  right. by left.
Defined.

(** ** The set-up of a session *)

(** X10. The set-up of a session fails with [AttributeError] when the
    corrected data is not a dictionary, and with [TypeError] when its
    [measures] is [None] or an integer.  In every other case it starts
    the session on measure 1 with [total_measures] the length of
    [measures] (of the empty list when the key is absent), or 1 when
    that length is 0, so that the current measure is within bounds, and
    with the tempo, the library and the player it was given. *)
Theorem session_setup_outcomes {P : Type} `{!AudioTool P}
    (data : pyval) (user : string) (tempo hand : option pref_value)
    (lib : gmap string (gmap string pref_value)) (p : P) :
  match data with
  | PDict d =>
      match py_len (default (PList []) (d !! "measures")) with
      | inl _ => init_session data user tempo hand lib p = inl TypeError
      | inr n =>
          ∃ st0,
            init_session data user tempo hand lib p = inr st0
            ∧ total_measures st0 = Z.max 1 n
            ∧ current_measure st0 = 1
            ∧ in_bounds st0
            ∧ current_tempo st0 = tempo
            ∧ library st0 = lib
            ∧ player st0 = p
      end
  | _ => init_session data user tempo hand lib p = inl AttributeError
  end.
Proof.
  destruct data as [| | | |d]; try done.
  unfold init_session. simpl.
  destruct (default (PList []) (d !! "measures")) as [|z|s|l|m] eqn:Hms;
    simpl; try done.
  all: eexists; split; [done|]; unfold in_bounds; simpl.
  all: case_bool_decide; repeat split; lia.
Qed.

(** ** The learning step *)

(** X11. The learning step calls the learners exactly when the corrected
    data differs from the original somewhere, at any depth: then it
    calls [learn_from_correction] and after it
    [record_correction_pattern], each once, with the original, the
    corrected data and the user; the order of the keys of a dictionary
    makes no difference. *)
Theorem learning_exactly_on_difference {W : Type}
    (learn record : pyval → pyval → string → W → W)
    (music_data corrected_data : pyval) (user : string) (w : W) :
  (corrected_data ≠ music_data →
   learn_from_corrections learn record music_data corrected_data user w
   = ([LearnFromCorrection music_data corrected_data user;
       RecordCorrectionPattern music_data corrected_data user],
      record music_data corrected_data user
        (learn music_data corrected_data user w)))
  ∧ ((learn_from_corrections learn record music_data corrected_data
                             user w).1 = []
     ↔ corrected_data = music_data).
Proof.
  unfold learn_from_corrections.
  destruct (py_eqb corrected_data music_data) eqn:Heq; simpl.
  - apply py_eqb_eq in Heq. by split.
  - assert (corrected_data ≠ music_data) as Hne.
    { intros ->. by rewrite py_eqb_refl in Heq. }
    split; [done|]. by split.
Qed.

Lemma learning_exactly_on_difference_witness :
  learn_from_corrections spec_learn spec_record (rest_score 3)
    (rest_score 2) "default_user" (LearnerState ∅ [])
  = ([LearnFromCorrection (rest_score 3) (rest_score 2) "default_user";
      RecordCorrectionPattern (rest_score 3) (rest_score 2) "default_user"],
     LearnerState ∅
       [CorrectionRecord "default_user" (rest_score 3) (rest_score 2)]).
Proof.
  apply (proj1 (learning_exactly_on_difference spec_learn spec_record
                  (rest_score 3) (rest_score 2) "default_user"
                  (LearnerState ∅ []))).
  intros Heq%py_eqb_eq. vm_compute in Heq. discriminate Heq.
Defined.

(** ** Getting the music data of a file *)

Section FetchFacts.

Context {L E : Type}.
Variable get_cached_data : L → string → L * pyval.
Variable save_to_library : string → pyval → string → L → L.
Variable extract : E → string → string → E * pyval.

(** The events of the three ways through [fetch_music]. *)
Lemma fetch_music_cases file_path user lib ex :
  let cached := get_cached_data lib file_path in
  let extracted := extract ex file_path user in
  fetch_music get_cached_data save_to_library extract file_path user lib ex
  = if py_truthy cached.2 then
      ([Said "Loaded from library."; Said "Extraction complete."],
       (cached.1, ex, Some cached.2))
    else if py_truthy extracted.2 then
      ([Said "Extracting with memory-enabled agent...";
        Extracted file_path user;
        Saved file_path extracted.2 user;
        Said "Extraction complete."],
       (save_to_library file_path extracted.2 user cached.1, extracted.1,
        Some extracted.2))
    else
      ([Said "Extracting with memory-enabled agent...";
        Extracted file_path user;
        Said "Failed to extract music data."],
       (cached.1, extracted.1, None)).
Proof.
  unfold fetch_music. simpl.
  destruct (get_cached_data lib file_path) as [lib1 d]. simpl.
  destruct (py_truthy d); simpl; [done|].
  destruct (extract ex file_path user) as [ex1 d']. simpl.
  by destruct (py_truthy d').
Qed.

End FetchFacts.

(** X12. The workflow extracts exactly when the library has no data for
    the file or has empty data ([None], an empty dictionary or list),
    and saves exactly when it extracted and the extraction gave data
    that is not empty.  The data it goes on with is never empty, and
    after a failed extraction nothing is saved and there is no data to
    go on with. *)
Theorem fetch_extracts_and_saves_when_needed {L E : Type}
    (get_cached_data : L → string → L * pyval)
    (save_to_library : string → pyval → string → L → L)
    (extract : E → string → string → E * pyval)
    (file_path user : string) (lib : L) (ex : E) :
  let cached := (get_cached_data lib file_path).2 in
  let extracted := (extract ex file_path user).2 in
  let res :=
    fetch_music get_cached_data save_to_library extract file_path user
                lib ex in
  existsb is_extraction res.1 = negb (py_truthy cached)
  ∧ existsb is_save res.1
    = negb (py_truthy cached) && py_truthy extracted
  ∧ match res.2.2 with
    | Some d => py_truthy d = true
    | None =>
        py_truthy cached = false ∧ py_truthy extracted = false
        ∧ res.2.1.1 = (get_cached_data lib file_path).1
    end.
Proof.
  intros cached extracted res. unfold res.
  rewrite fetch_music_cases. fold cached extracted.
  destruct (py_truthy cached) eqn:Hc; simpl; [done|].
  by destruct (py_truthy extracted) eqn:He.
Qed.


(** A look-up in the score store after a save gives the saved data. *)
Lemma store_get_after_save (l : gmap string pyval) (p : string)
    (d : pyval) (u : string) :
  (store_get (store_save p d u l) p).2 = d.
Proof. unfold store_get, store_save. simpl. by rewrite lookup_insert_eq. Qed.


(** ** Stripping and lowering *)

Lemma lower_char_idem (a : ascii) :
  PyStr.lower_char (PyStr.lower_char a) = PyStr.lower_char a.
Proof. by destruct a as [[] [] [] [] [] [] [] []]. Qed.

Lemma isspace_lower_char (a : ascii) :
  PyStr.isspace (PyStr.lower_char a) = PyStr.isspace a.
Proof. by destruct a as [[] [] [] [] [] [] [] []]. Qed.

Lemma lower_idem (s : string) : PyStr.lower (PyStr.lower s) = PyStr.lower s.
Proof.
  induction s as [|a s IH]; simpl; [done|].
  by rewrite lower_char_idem, IH.
Qed.

Lemma lstrip_lower (s : string) :
  PyStr.lstrip (PyStr.lower s) = PyStr.lower (PyStr.lstrip s).
Proof.
  induction s as [|a s IH]; simpl; [done|].
  rewrite isspace_lower_char. by destruct (PyStr.isspace a).
Qed.

Lemma rev_app_lower (s t : string) :
  String.rev_app (PyStr.lower s) (PyStr.lower t)
  = PyStr.lower (String.rev_app s t).
Proof.
  revert t. induction s as [|a s IH]; intros t; simpl; [done|].
  by rewrite <- IH.
Qed.

Lemma rev_lower (s : string) :
  String.rev (PyStr.lower s) = PyStr.lower (String.rev s).
Proof. apply (rev_app_lower s ""). Qed.

Lemma strip_lower (s : string) :
  PyStr.strip (PyStr.lower s) = PyStr.lower (PyStr.strip s).
Proof.
  unfold PyStr.strip, PyStr.rstrip.
  by rewrite lstrip_lower, rev_lower, lstrip_lower, rev_lower.
Qed.

Lemma app_cons (a : ascii) (s t : string) :
  String a s +:+ t = String a (s +:+ t).
Proof. reflexivity. Qed.

Lemma app_empty_r (s : string) : s +:+ "" = s.
Proof.
  induction s as [|a s IH]; [done|]. by rewrite app_cons, IH.
Qed.

Lemma app_assoc_string (s t u : string) :
  (s +:+ t) +:+ u = s +:+ (t +:+ u).
Proof.
  induction s as [|a s IH]; [done|]. by rewrite !app_cons, IH.
Qed.

Lemma rev_app_spec (s t : string) :
  String.rev_app s t = String.rev s +:+ t.
Proof.
  unfold String.rev. revert t.
  induction s as [|a s IH]; intros t; simpl; [done|].
  rewrite IH, (IH (String a "")). by rewrite app_assoc_string.
Qed.

Lemma rev_cons (a : ascii) (s : string) :
  String.rev (String a s) = String.rev s +:+ String a "".
Proof. unfold String.rev at 1. simpl. apply rev_app_spec. Qed.

Lemma rev_snoc (s : string) (a : ascii) :
  String.rev (s +:+ String a "") = String a (String.rev s).
Proof.
  induction s as [|b s IH]; [done|].
  by rewrite app_cons, !rev_cons, IH.
Qed.

Lemma lstrip_snoc (s : string) (a : ascii) :
  PyStr.lstrip (s +:+ String a "")
  = match PyStr.lstrip s with
    | EmptyString => if PyStr.isspace a then "" else String a ""
    | String b r => String b r +:+ String a ""
    end.
Proof.
  induction s as [|b s IH]; [done|].
  rewrite app_cons. simpl. by destruct (PyStr.isspace b).
Qed.

(** [rstrip] from the left: the tail is stripped, and a character stays
    unless it is blank and nothing stays behind it. *)
Lemma rstrip_cons (a : ascii) (s : string) :
  PyStr.rstrip (String a s)
  = match PyStr.rstrip s with
    | EmptyString => if PyStr.isspace a then "" else String a ""
    | String b r => String a (String b r)
    end.
Proof.
  unfold PyStr.rstrip. rewrite rev_cons, lstrip_snoc.
  destruct (PyStr.lstrip (String.rev s)) as [|b r] eqn:Hl.
  - by destruct (PyStr.isspace a).
  - rewrite rev_snoc.
    destruct (String.rev (String b r)) as [|c u] eqn:Hrev; [|done].
    rewrite rev_cons in Hrev. by destruct (String.rev r).
Qed.

Lemma rstrip_idem (s : string) :
  PyStr.rstrip (PyStr.rstrip s) = PyStr.rstrip s.
Proof.
  induction s as [|a s IH]; [done|].
  rewrite rstrip_cons.
  destruct (PyStr.rstrip s) as [|b r] eqn:Hr.
  - destruct (PyStr.isspace a) eqn:Ha; [done|].
    by rewrite rstrip_cons, Ha.
  - by rewrite rstrip_cons, IH.
Qed.

Lemma lstrip_head (s : string) :
  match PyStr.lstrip s with
  | EmptyString => True
  | String a _ => PyStr.isspace a = false
  end.
Proof.
  induction s as [|a s IH]; simpl; [done|].
  by destruct (PyStr.isspace a) eqn:Ha; simpl.
Qed.

Lemma lstrip_fixed (s : string) :
  match s with
  | EmptyString => True
  | String a _ => PyStr.isspace a = false
  end →
  PyStr.lstrip s = s.
Proof. destruct s as [|a s]; simpl; [done|]. by intros ->. Qed.

(** [strip] does nothing to a stripped string. *)
Lemma strip_idem (s : string) :
  PyStr.strip (PyStr.strip s) = PyStr.strip s.
Proof.
  unfold PyStr.strip.
  rewrite (lstrip_fixed (PyStr.rstrip (PyStr.lstrip s))).
  - apply rstrip_idem.
  - pose proof (lstrip_head s) as Hhead.
    destruct (PyStr.lstrip s) as [|a t]; [done|].
    rewrite rstrip_cons. destruct (PyStr.rstrip t).
    + by rewrite Hhead.
    + done.
Qed.

(** X14. The session reads a line without regard to the case of its
    letters and to the blanks around it: stripping and lowering a line
    that was stripped and lowered changes nothing, so a line and its
    stripped and lowered form get the same turn. *)
Theorem commands_ignore_case_and_blanks {P : Type} `{!AudioTool P}
    (st : session P) (line : string) :
  normalise (normalise line) = normalise line
  ∧ step st (normalise line) = step st line.
Proof.
  assert (normalise (normalise line) = normalise line) as Hidem.
  { unfold normalise. by rewrite strip_lower, strip_idem, lower_idem. }
  split; [done|]. unfold step. by rewrite Hidem.
Qed.

(** ** The notes of a voice file *)

Lemma contains_lstrip (c : ascii) (s : string) :
  PyStr.contains c s = false → PyStr.contains c (PyStr.lstrip s) = false.
Proof.
  induction s as [|a s IH]; simpl; [done|].
  intros [Ha Hs]%orb_false_iff.
  destruct (PyStr.isspace a); [by apply IH|]. simpl. by rewrite Ha, Hs.
Qed.

Lemma contains_rstrip (c : ascii) (s : string) :
  PyStr.contains c s = false → PyStr.contains c (PyStr.rstrip s) = false.
Proof.
  induction s as [|a s IH]; [done|]. simpl.
  intros [Ha Hs]%orb_false_iff. rewrite rstrip_cons.
  specialize (IH Hs).
  destruct (PyStr.rstrip s) as [|b r].
  - destruct (PyStr.isspace a); [done|]. simpl. by rewrite Ha.
  - simpl in *. by rewrite Ha, IH.
Qed.

Lemma fields_without (c : ascii) (s w : string) :
  w ∈ PyStr.split_on c s → PyStr.contains c w = false.
Proof.
  unfold PyStr.split_on. revert w.
  induction s as [|b s IH]; intros w; simpl.
  - by intros ->%list_elem_of_singleton.
  - destruct (bool_decide (b = c)) eqn:Hb.
    + intros [->|Hw]%elem_of_cons; [done|]. by apply IH.
    + destruct (PyStr.fields _ s) as [|w0 ws] eqn:Hfs.
      * intros ->%list_elem_of_singleton. simpl. by rewrite Hb.
      * intros [->|Hw]%elem_of_cons.
        -- simpl. rewrite Hb. apply IH. by left.
        -- apply IH. by right.
Qed.

Lemma length_split_on (c : ascii) (s : string) :
  length (PyStr.split_on c s) = S (PyStr.count c s).
Proof.
  unfold PyStr.split_on.
  induction s as [|a s IH]; simpl; [done|].
  destruct (bool_decide (a = c)); simpl; [by rewrite IH|].
  by destruct (PyStr.fields _ s).
Qed.

(** X15. The notes handed to the voice processor: there are as many as
    the option has commas and one more, so at least one; none has a
    comma in it or blanks around it; and a note can be empty, as the
    only note of an empty option is. *)
Theorem notes_are_split_and_stripped (notes : string) :
  length (parse_notes notes) = S (PyStr.count "," notes)
  ∧ Forall (λ n, PyStr.strip n = n ∧ PyStr.contains "," n = false)
           (parse_notes notes)
  ∧ parse_notes "" = [""].
Proof.
  unfold parse_notes. split; [|split; [|done]].
  - by rewrite length_fmap, length_split_on.
  - apply Forall_fmap, Forall_forall. intros w Hw. simpl.
    split; [apply strip_idem|].
    unfold PyStr.strip.
    by apply contains_rstrip, contains_lstrip, (fields_without _ notes).
Qed.

(** ** The choice of a workflow *)

(** X16. When [main] starts the extraction workflow, the workflow's last
    guard cannot fire: the only refusals left are those of the two voice
    options without a file.  The workflow goes on to the library only
    with a file path that is not empty, and the assistant prints its
    usage exactly when the command line gave it nothing. *)
Theorem workflow_choice (a : cli_args) :
  (main_dispatch a = ExtractionWorkflow →
   ∀ msg, extraction_entry_of a = Refused msg →
          msg = "Error: file_path required for --split-voice"
          ∨ msg = "Error: file_path required for --clone-voice")
  ∧ (∀ file_path user,
       extraction_entry_of a = ProcessFile file_path user →
       arg_file_path a = Some file_path ∧ file_path ≠ EmptyString
       ∧ user = arg_user_id a
       ∧ main_dispatch a = ExtractionWorkflow)
  ∧ (main_dispatch a = MusicAssistant ∧ assistant_mode_of a = Usage
     ↔ given (arg_file_path a) = false ∧ arg_split_voice a = false
       ∧ arg_clone_voice a = false ∧ arg_eval_summary a = false
       ∧ arg_interactive a = false ∧ given (arg_query a) = false
       ∧ given (arg_file a) = false).
Proof.
  unfold main_dispatch, extraction_entry_of, assistant_mode_of.
  destruct a as [m q i f fp sv n h t cv ev u es]; simpl.
  split; [|split].
  - destruct es, sv, cv, (given fp); simpl; try done;
      intros _ msg [= <-]; auto.
  - intros file_path user.
    destruct es, sv, cv, fp as [p|]; simpl; try done;
      case_bool_decide as Hp; simpl; try done.
    intros [= <- <-]. by repeat split.
  - destruct (given fp), sv, cv, es, i, (given q), (given f); simpl;
      intuition discriminate.
Qed.

Lemma workflow_choice_witness :
  extraction_entry_of
    (CliArgs "assistant" None false None None true "C4,D4" "both" None
             false false "default_user" false)
  = Refused "Error: file_path required for --split-voice"
  ∧ ("Error: file_path required for --split-voice"
     = "Error: file_path required for --split-voice"
     ∨ "Error: file_path required for --split-voice"
       = "Error: file_path required for --clone-voice").
Proof.
  split; [reflexivity|].
  exact (proj1 (workflow_choice
                  (CliArgs "assistant" None false None None true "C4,D4"
                           "both" None false false "default_user" false))
               eq_refl "Error: file_path required for --split-voice"
               eq_refl).
Defined.

(** ** The loop of the music assistant *)

Section AssistantFacts.

Context {R : Type}.
Variable path_exists : string → bool.
Variable read_file : string → option string.
Variable b64encode : string → string.
Variable run_async : R → message → R * list string * bool.

(** A turn leaves the loop only for [exit] and [quit], in any case of
    the letters, and otherwise goes on. *)
Lemma assistant_turn_outcome (r : R) (line : string) :
  (PyStr.lower line ∈ ["exit"; "quit"]
   ∧ assistant_turn path_exists read_file b64encode run_async r line
     = ([], Break r))
  ∨ ((PyStr.lower line ∉ ["exit"; "quit"])
     ∧ (∃ r',
          (assistant_turn path_exists read_file b64encode run_async
                          r line).2 = Continue r')).
Proof.
  unfold assistant_turn. case_bool_decide as Hexit; [by left|].
  right. split; [done|].
  unfold send_with_file, send.
  repeat case_match; simplify_eq/=; eauto.
Qed.

(** An upload is neither [exit] nor [quit]. *)
Lemma upload_is_no_exit (line : string) :
  PyStr.startswith "upload " (PyStr.lower line) = true →
  PyStr.lower line ∉ ["exit"; "quit"].
Proof.
  intros [rest Hline]%startswith_app. rewrite Hline.
  rewrite !elem_of_cons, elem_of_nil. intros [H|[H|[]]]; discriminate H.
Qed.

End AssistantFacts.


(** X18. An upload line whose file is there sends the runner one
    message: the request that names the path as it was typed, only the
    blanks around it removed, and the file's content, encoded, under a
    type that is PNG or PDF by the end of the path in any case of its
    letters and JPEG for every other file. *)
Theorem upload_sends_the_file {R : Type}
    (path_exists : string → bool) (read_file : string → option string)
    (b64encode : string → string)
    (run_async : R → message → R * list string * bool)
    (r : R) (line path content : string) :
  PyStr.startswith "upload " (PyStr.lower line) = true →
  PyStr.strip (PyStr.drop 7 line) = path →
  path ≠ EmptyString →
  path_exists path = true →
  read_file path = Some content →
  sent_messages
    (assistant_turn path_exists read_file b64encode run_async r line).1
  = [Message
       ("Please convert this music sheet image to MusicXML. File path: "
        +:+ path)
       (Some (InlineData (mime_type path) (b64encode content)))]
  ∧ mime_type path ∈ ["image/png"; "application/pdf"; "image/jpeg"]
  ∧ mime_type (PyStr.lower path) = mime_type path.
Proof.
  intros Hupload Hpath Hsome Hexists Hread.
  split; [|split].
  - unfold assistant_turn.
    rewrite bool_decide_eq_false_2 by by apply upload_is_no_exit.
    rewrite Hupload, Hpath, Hexists.
    rewrite bool_decide_eq_true_2 by done. simpl.
    unfold send_with_file, send. rewrite Hread.
    destruct (run_async r _) as [[r' texts] [|]]; done.
  - unfold mime_type. repeat case_match.
    + by left.
    + right. by left.
    + do 2 right. by left.
  - unfold mime_type. by rewrite lower_idem.
Qed.

Lemma upload_sends_the_file_witness :
  sent_messages
    (assistant_turn (λ _, true) (λ _, Some "bytes") (λ c, c)
       (λ (r : nat) _, (S r, ["Done."], true)) O
       "Upload  Sheets/Etude.PNG ").1
  = [Message
       "Please convert this music sheet image to MusicXML. File path: Sheets/Etude.PNG"
       (Some (InlineData "image/png" "bytes"))]
  ∧ mime_type "Sheets/Etude.PNG"
    ∈ ["image/png"; "application/pdf"; "image/jpeg"]
  ∧ mime_type (PyStr.lower "Sheets/Etude.PNG")
    = mime_type "Sheets/Etude.PNG".
Proof.
  exact (upload_sends_the_file (λ _, true) (λ _, Some "bytes") (λ c, c)
           (λ (r : nat) _, (S r, ["Done."], true)) O
           "Upload  Sheets/Etude.PNG " "Sheets/Etude.PNG" "bytes"
           eq_refl eq_refl ltac:(discriminate) eq_refl eq_refl).
Defined.

(** X19. A file that is not there: in the interactive loop an upload
    still sends the runner the request that names the path, without a
    file and without a word to the user; a single query reports that the
    file was not found and sends nothing. *)
Theorem missing_file_is_handled_in_two_ways {R : Type}
    (path_exists : string → bool) (read_file : string → option string)
    (b64encode : string → string)
    (run_async : R → message → R * list string * bool)
    (r : R) (line path : string) (query : option string) :
  PyStr.startswith "upload " (PyStr.lower line) = true →
  PyStr.strip (PyStr.drop 7 line) = path →
  path ≠ EmptyString →
  path_exists path = false →
  sent_messages
    (assistant_turn path_exists read_file b64encode run_async r line).1
  = [Message
       ("Please convert this music sheet image to MusicXML. File path: "
        +:+ path) None]
  ∧ single_query path_exists read_file b64encode run_async query
                 (Some path) r
    = ([FileNotFound path], r).
Proof.
  intros Hupload Hpath Hsome Hmissing. split.
  - unfold assistant_turn.
    rewrite bool_decide_eq_false_2 by by apply upload_is_no_exit.
    rewrite Hupload, Hpath, Hmissing, andb_false_r.
    unfold send. destruct (run_async r _) as [[r' texts] [|]]; done.
  - unfold single_query. simpl.
    rewrite bool_decide_eq_true_2 by done. by rewrite Hmissing.
Qed.

Lemma missing_file_is_handled_in_two_ways_witness :
  sent_messages
    (assistant_turn (λ _, false) (λ _, None) (λ c, c)
       (λ (r : nat) _, (S r, ["Which file?"], true)) O
       "upload lost.pdf").1
  = [Message
       "Please convert this music sheet image to MusicXML. File path: lost.pdf"
       None]
  ∧ single_query (λ _, false) (λ _, None) (λ c, c)
      (λ (r : nat) _, (S r, ["Which file?"], true)) None
      (Some "lost.pdf") O
    = ([FileNotFound "lost.pdf"], O).
Proof.
  exact (missing_file_is_handled_in_two_ways (λ _, false) (λ _, None)
           (λ c, c) (λ (r : nat) _, (S r, ["Which file?"], true)) O
           "upload lost.pdf" "lost.pdf" None
           eq_refl eq_refl ltac:(discriminate) eq_refl).
Defined.

(** ** The filter on the error stream *)

(** X20. Through the filter, the original error stream receives exactly
    the texts that hold none of the three phrases of the warning, each
    as it was written and in the order of the writes; every text that
    holds one of the phrases is dropped whole. *)
Theorem filtered_stderr_drops_the_warnings (original texts : list string) :
  foldl filtered_write original texts
  = original
    ++ filter (λ text,
                 existsb (λ phrase, PyStr.within phrase text)
                         filtered_phrases = false) texts.
Proof.
  revert original. induction texts as [|text texts IH]; intros original.
  - by rewrite app_nil_r.
  - change (foldl filtered_write original (text :: texts))
      with (foldl filtered_write (filtered_write original text) texts).
    rewrite IH, filter_cons. unfold filtered_write.
    destruct (existsb _ filtered_phrases) eqn:Hany.
    + by rewrite decide_False by done.
    + rewrite decide_True by done. by rewrite <- app_assoc.
Qed.

(** ** Arguments and stored preferences *)

(** X21. An explicit tempo or hand on the command line is never
    replaced by a stored preference: the session starts with the tempo
    that was given when one was given, and with the left or the right
    hand when that was asked for.  A stored tempo is taken, as a
    string, only when no tempo was given and the stored one is not
    zero or empty; a stored hand only when the argument is [both]. *)
Theorem explicit_arguments_win {P : Type} `{!AudioTool P}
    (data : pyval) (user : string) (args_tempo args_hand : option pref_value)
    (lib : gmap string (gmap string pref_value)) (p : P)
    (st0 : session P) :
  (start_session data user args_tempo args_hand lib p).2 = inr st0 →
  let stored := Library.get_user_preferences lib user in
  (truthy args_tempo = true → current_tempo st0 = args_tempo)
  ∧ (truthy args_tempo = false →
     current_tempo st0
     = if truthy (stored !! "default_tempo")
       then Some (VStr (py_str (stored !! "default_tempo")))
       else args_tempo)
  ∧ (args_hand = Some (VStr "left") → current_hands st0 = ["left"])
  ∧ (args_hand = Some (VStr "right") → current_hands st0 = ["right"])
  ∧ (args_hand = Some (VStr "both") →
     current_hands st0
     = if bool_decide (stored !! "preferred_hand" = Some (VStr "left"))
       then ["left"]
       else if bool_decide (stored !! "preferred_hand"
                            = Some (VStr "right"))
       then ["right"] else ["left"; "right"]).
Proof.
  unfold start_session, use_preferred_tempo, use_preferred_hand,
    init_session.
  intros Hstart.
  set (stored := Library.get_user_preferences lib user) in *.
  destruct (truthy args_tempo) eqn:Htempo; simpl in Hstart.
  - repeat case_match; simplify_eq/=; repeat split; try done;
      intros; simplify_eq/=; repeat case_bool_decide; congruence.
  - repeat case_match; simplify_eq/=; repeat split; try done;
      intros; simplify_eq/=; repeat case_bool_decide; congruence.
Qed.

Lemma explicit_arguments_win_witness :
  current_tempo
    (Session three_measures "ann" 3 1 (Some (VStr "60")) ["right"]
       {["ann" := {["default_tempo" := VInt 90;
                    "preferred_hand" := VStr "left"]}]} Steady)
  = Some (VStr "60")
  ∧ current_hands
      (Session three_measures "ann" 3 1 (Some (VStr "60")) ["right"]
         {["ann" := {["default_tempo" := VInt 90;
                      "preferred_hand" := VStr "left"]}]} Steady)
    = ["right"].
Proof.
  pose proof (explicit_arguments_win three_measures "ann"
                (Some (VStr "60")) (Some (VStr "right"))
                {["ann" := {["default_tempo" := VInt 90;
                             "preferred_hand" := VStr "left"]}]} Steady
                (Session three_measures "ann" 3 1 (Some (VStr "60"))
                   ["right"]
                   {["ann" := {["default_tempo" := VInt 90;
                                "preferred_hand" := VStr "left"]}]} Steady)
                eq_refl) as (Htempo & _ & _ & Hright & _).
  split; [exact (Htempo eq_refl)|exact (Hright eq_refl)].
Defined.

(** ** Lines that are no command *)

(** X22. A line that, stripped and lowered, is not [exit], [next] or
    [prev] and does not start with [play], [tempo] or [hand] prints
    "Unknown command." and changes nothing in the session, the library
    and the player; the empty line is such a line. *)
Theorem unknown_lines_change_nothing {P : Type} `{!AudioTool P}
    (st : session P) (lines : list string) :
  Forall (λ line, recognised (normalise line) = false) lines →
  run st lines
  = (flat_map (λ _, [prompt st; Print "Unknown command."]) lines
     ++ [prompt st],
     Raise EOFError st).
Proof.
  induction 1 as [|line rest Hline _ IH]; simpl; [done|].
  unfold step. rewrite (exec_unknown _ _ Hline). by rewrite IH.
Qed.

Lemma unknown_lines_change_nothing_witness :
  run (session_on three_measures 3 1 Steady) [""; "stop"; "pla 2"]
  = (flat_map (λ _, [prompt (session_on three_measures 3 1 Steady);
                     Print "Unknown command."])
              [""; "stop"; "pla 2"]
     ++ [prompt (session_on three_measures 3 1 Steady)],
     Raise EOFError (session_on three_measures 3 1 Steady)).
Proof.
  apply (unknown_lines_change_nothing
           (session_on three_measures 3 1 Steady) [""; "stop"; "pla 2"]).
  repeat (apply Forall_cons_2; [reflexivity|]). apply Forall_nil_2.
Defined.
